(** * Prombench scaler (tools/scaler/scaler.go)

    A shallow embedding of the replica oscillator: the [scale] struct, the
    method [updateReplicas] that rewrites the replica pointer of every loaded
    Deployment and returns deep copies, and the method [scale] with its two
    endless loops (burst and step).

    - [int32] values are integers of [Z]; the one addition of the program
      ([numberOfResources += s.scalingFactor]) wraps around as in Go.
    - [*int32] values are modelled by [int32_ptr]: the program only ever
      hands out the addresses of [s.max], [s.min] and of the local
      [numberOfResources], and [DeepCopyObject] allocates private cells.
    - The process is a small state monad over [World] (the struct, the local,
      the number of calls made to the cluster, the trace of effects) whose
      results also record [os.Exit], a run-time panic, and a loop still
      running when the observation stops. *)

From Stdlib Require Import ZArith List String Ascii Bool Lia Arith.
Import ListNotations.
Open Scope Z_scope.

(** ** int32 arithmetic *)

Definition INT32_MIN : Z := - 2 ^ 31.
Definition INT32_MAX : Z := 2 ^ 31 - 1.

(** Two's complement wrap-around of a mathematical integer into int32. *)
Definition wrap32 (z : Z) : Z := (z + 2 ^ 31) mod 2 ^ 32 - 2 ^ 31.

(** Go's [a + b] on int32 operands. *)
Definition int32_add (a b : Z) : Z := wrap32 (a + b).

(** Go's [a / b] on int32 operands: the quotient is truncated toward zero.
    The program divides by the constant 10 only, which cannot overflow. *)
Definition int32_quo (a b : Z) : Z := Z.quot a b.

(** ** strings.ToLower

    Only the comparison of the result with ["deployment"] matters.  None of
    the letters of that word is the lower case of a rune outside ASCII, so
    mapping the bytes 'A'..'Z' and leaving the others alone decides the test
    exactly as Go does. *)

Definition lower_ascii (c : ascii) : ascii :=
  let n := nat_of_ascii c in
  if (andb (Nat.leb 65 n) (Nat.leb n 90)) then ascii_of_nat (n + 32) else c.

Fixpoint ToLower (s : string) : string :=
  match s with
  | EmptyString => EmptyString
  | String c r => String (lower_ascii c) (ToLower r)
  end.

(** ** Kubernetes objects *)

(** A [*int32].  [cell v] is a private cell holding [v] (what the decoder or
    a deep copy allocates); the other non-nil values are the addresses the
    scaler passes to [updateReplicas]. *)
Inductive int32_ptr : Type :=
| nil_ptr
| cell (v : Z)
| addr_max                  (* &s.max *)
| addr_min                  (* &s.min *)
| addr_numberOfResources.   (* &numberOfResources *)

(** [appsV1.Deployment]: the kind of its TypeMeta, its name, its
    [Spec.Replicas] and every remaining field ([Rest]). *)
Record Deployment : Type := mkDeployment {
  d_Kind : string;
  d_Name : string;
  d_Rest : string;
  Spec_Replicas : int32_ptr
}.

(** A [runtime.Object] is an interface value: its dynamic type is either
    [*appsV1.Deployment] or something else (a Service, a ConfigMap, a
    Deployment of another API group version, ...). *)
Inductive Object : Type :=
| ODeployment (d : Deployment)
| OOther (kind : string) (name : string) (rest : string).

(** [resource.GetObjectKind().GroupVersionKind().Kind] *)
Definition GetKind (o : Object) : string :=
  match o with
  | ODeployment d => d_Kind d
  | OOther k _ _ => k
  end.

(** [k8s.Resource] *)
Record Resource : Type := mkResource {
  FileName : string;
  Objects : list Object
}.

(** Modelled from the spec: the cluster-management client [k8s.K8s] is not
    part of the sources at hand.  It is reduced to the Target Set that
    [GetResources] returns, "an ordered collection of deployable workload
    descriptors, each identified by a file name and a list of object
    definitions", loaded once before [scale] runs. *)
Record K8s : Type := mkK8s {
  resources : list Resource
}.

(** The [scale] struct. *)
Record scale : Type := mkScale {
  k8sClient : K8s;
  min : Z;
  max : Z;
  interval : Z;
  patternName : string;
  scalingFactor : Z
}.

(** ** The world of the process *)

Inductive LogLine : Type :=
| LAutoScalePattern (name : string)
| LStarting (mx mn itv : Z) (factor : option Z)
| LFactorGeMax (factor mx : Z)
| LFactorZero
| LUpdatingFactor (factor : Z)
| LScalingTo (n : Z)
| LInvalidPattern (name : string).

Inductive Event : Type :=
| EvLog (l : LogLine)            (* log.Printf, log.Print *)
| EvApply (rs : list Resource)   (* s.k8sClient.ResourceApply *)
| EvStderr                       (* fmt.Fprintln(os.Stderr, "Error scaling deployment: ...") *)
| EvSleep (d : Z).               (* time.Sleep *)

Record World : Type := mkWorld {
  w_s : scale;
  w_numberOfResources : Z;   (* the local of [scale], live in the step branch *)
  w_calls : nat;             (* calls made to ResourceApply so far *)
  w_trace : list Event
}.

(** What a [*int32] points to. *)
Definition load (w : World) (p : int32_ptr) : option Z :=
  match p with
  | nil_ptr => None
  | cell v => Some v
  | addr_max => Some (max (w_s w))
  | addr_min => Some (min (w_s w))
  | addr_numberOfResources => Some (w_numberOfResources w)
  end.

(** How a piece of the program ends. *)
Inductive Result (A : Type) : Type :=
| Ret (a : A)          (* it returned [a] *)
| Running              (* the observation stopped inside an endless loop *)
| Exited (code : Z)    (* os.Exit(code) *)
| Panicked.            (* run-time panic *)
Arguments Ret {A} a.
Arguments Running {A}.
Arguments Exited {A} code.
Arguments Panicked {A}.

Definition M (A : Type) : Type := World -> World * Result A.

Definition ret {A} (a : A) : M A := fun w => (w, Ret a).

Definition bind {A B} (m : M A) (k : A -> M B) : M B :=
  fun w =>
    match m w with
    | (w', Ret a) => k a w'
    | (w', Running) => (w', Running)
    | (w', Exited c) => (w', Exited c)
    | (w', Panicked) => (w', Panicked)
    end.

Notation "x <- m ;; k" := (bind m (fun x => k))
  (at level 61, m at next level, right associativity).
Notation "m ;;; k" := (bind m (fun _ => k))
  (at level 61, right associativity).

Definition emit (e : Event) : M unit :=
  fun w => (mkWorld (w_s w) (w_numberOfResources w) (w_calls w) (w_trace w ++ [e]), Ret tt).

Definition logPrintf (l : LogLine) : M unit := emit (EvLog l).
Definition Sleep (d : Z) : M unit := emit (EvSleep d).
Definition osExit {A} (code : Z) : M A := fun w => (w, Exited code).
Definition stillRunning {A} : M A := fun w => (w, Running).

Definition get_s : M scale := fun w => (w, Ret (w_s w)).
Definition set_s (s : scale) : M unit :=
  fun w => (mkWorld s (w_numberOfResources w) (w_calls w) (w_trace w), Ret tt).
Definition get_numberOfResources : M Z := fun w => (w, Ret (w_numberOfResources w)).
Definition set_numberOfResources (n : Z) : M unit :=
  fun w => (mkWorld (w_s w) n (w_calls w) (w_trace w), Ret tt).

(** The cluster is an external collaborator: whether the n-th call of
    [ResourceApply] fails is decided by the environment [env]. *)
Definition Env : Type := nat -> bool.

(** Modelled from the spec: [s.k8sClient.ResourceApply(rs)] belongs to the
    client, which is not part of the sources at hand.  "apply sends the
    mutated objects to the remote cluster API" and answers error or success:
    the call is recorded in the trace with its argument, it leaves the
    struct and the loaded resources alone, and its answer is the one the
    environment gives for this call ([true] when [err != nil]). *)
Definition ResourceApply (env : Env) (rs : list Resource) : M bool :=
  fun w =>
    (mkWorld (w_s w) (w_numberOfResources w) (S (w_calls w)) (w_trace w ++ [EvApply rs]),
     Ret (env (w_calls w))).

(** [if err := s.k8sClient.ResourceApply(rs); err != nil { fmt.Fprintln(os.Stderr, ...) }] *)
Definition applyAndReport (env : Env) (rs : list Resource) : M unit :=
  err <- ResourceApply env rs ;;
  if err then emit EvStderr else ret tt.

(** ** updateReplicas *)

(** [req.DeepCopyObject()]: every field is copied, a non-nil [Spec.Replicas]
    into a fresh cell holding the value it points to. *)
Definition DeepCopy (w : World) (d : Deployment) : Deployment :=
  mkDeployment (d_Kind d) (d_Name d) (d_Rest d)
    (match load w (Spec_Replicas d) with
     | Some v => cell v
     | None => nil_ptr
     end).

(** [req.Spec.Replicas = replicas] *)
Definition setSpecReplicas (req : Deployment) (replicas : int32_ptr) : Deployment :=
  mkDeployment (d_Kind req) (d_Name req) (d_Rest req) replicas.

(** [strings.ToLower(resource.GetObjectKind().GroupVersionKind().Kind) == "deployment"] *)
Definition isDeploymentKind (o : Object) : bool :=
  String.eqb (ToLower (GetKind o)) "deployment".

(** The inner loop, [for _, resource := range deployment.Objects].  The
    objects are updated in place: the first component is the slice as the
    loop leaves it, the second the [k8sObjects] collected, or [None] when the
    type assertion of [resource] to a pointer to [appsV1.Deployment] panics. *)
Fixpoint updateObjects (w : World) (replicas : int32_ptr)
    (objs : list Object) (k8sObjects : list Object)
  : list Object * option (list Object) :=
  match objs with
  | [] => ([], Some k8sObjects)
  | resource :: more =>
      if isDeploymentKind resource then
        match resource with
        | ODeployment req =>
            let req' := setSpecReplicas req replicas in
            let (more', r) :=
              updateObjects w replicas more
                (k8sObjects ++ [ODeployment (DeepCopy w req')]) in
            (ODeployment req' :: more', r)
        | OOther _ _ _ => (resource :: more, None)
        end
      else
        let (more', r) := updateObjects w replicas more k8sObjects in
        (resource :: more', r)
  end.

(** The outer loop, [for _, deployment := range s.k8sClient.GetResources()]. *)
Fixpoint updateResources (w : World) (replicas : int32_ptr)
    (rs : list Resource) (k8sResource : list Resource)
  : list Resource * option (list Resource) :=
  match rs with
  | [] => ([], Some k8sResource)
  | deployment :: more =>
      match updateObjects w replicas (Objects deployment) [] with
      | (objs', None) => (mkResource (FileName deployment) objs' :: more, None)
      | (objs', Some k8sObjects) =>
          let k8sResource' :=
            if Nat.ltb 0 (List.length k8sObjects)
            then k8sResource ++ [mkResource (FileName deployment) k8sObjects]
            else k8sResource in
          let (more', r) := updateResources w replicas more k8sResource' in
          (mkResource (FileName deployment) objs' :: more', r)
      end
  end.

Definition with_resources (s : scale) (rs : list Resource) : scale :=
  mkScale (mkK8s rs) (min s) (max s) (interval s) (patternName s) (scalingFactor s).

(** The method [updateReplicas] of the struct: from [replicas *int32] to
    [[]k8s.Resource]. *)
Definition updateReplicas (replicas : int32_ptr) : M (list Resource) :=
  fun w =>
    let (rs', r) := updateResources w replicas (resources (k8sClient (w_s w))) [] in
    let w' := mkWorld (with_resources (w_s w) rs') (w_numberOfResources w)
                      (w_calls w) (w_trace w) in
    match r with
    | Some k8sResource => (w', Ret k8sResource)
    | None => (w', Panicked)
    end.

(** ** scale *)

Definition with_scalingFactor (s : scale) (f : Z) : scale :=
  mkScale (k8sClient s) (min s) (max s) (interval s) (patternName s) f.

(** The body of the [for] of the burst branch, run [fuel] times. *)
Fixpoint burstLoop (env : Env) (maxResourceObjects minResourceObjects : list Resource)
    (fuel : nat) : M unit :=
  match fuel with
  | O => stillRunning
  | S fuel' =>
      s <- get_s ;;
      logPrintf (LScalingTo (max s)) ;;;
      applyAndReport env maxResourceObjects ;;;
      Sleep (interval s) ;;;
      logPrintf (LScalingTo (min s)) ;;;
      applyAndReport env minResourceObjects ;;;
      Sleep (interval s) ;;;
      burstLoop env maxResourceObjects minResourceObjects fuel'
  end.

(** The body of the [for] of the step branch, run [fuel] times. *)
Fixpoint stepLoop (env : Env) (fuel : nat) : M unit :=
  match fuel with
  | O => stillRunning
  | S fuel' =>
      s <- get_s ;;
      numberOfResources <- get_numberOfResources ;;
      logPrintf (LScalingTo numberOfResources) ;;;
      resourceObjects <- updateReplicas addr_numberOfResources ;;
      applyAndReport env resourceObjects ;;;
      Sleep (interval s) ;;;
      set_numberOfResources (int32_add numberOfResources (scalingFactor s)) ;;;
      numberOfResources <- get_numberOfResources ;;
      (if max s <? numberOfResources
       then set_numberOfResources (max s)
       else ret tt) ;;;
      stepLoop env fuel'
  end.

(** Lines 100-114: the scaling factor is replaced when it is not usable. *)
Definition adjustScalingFactor : M unit :=
  s <- get_s ;;
  let updateScalingFactor := false in
  updateScalingFactor <-
    (if max s <=? scalingFactor s
     then logPrintf (LFactorGeMax (scalingFactor s) (max s)) ;;; ret true
     else ret updateScalingFactor) ;;
  updateScalingFactor <-
    (if scalingFactor s =? 0
     then logPrintf LFactorZero ;;; ret true
     else ret updateScalingFactor) ;;
  if Bool.eqb updateScalingFactor true then
    set_s (with_scalingFactor s (int32_quo (max s) 10)) ;;;
    s <- get_s ;;
    logPrintf (LUpdatingFactor (scalingFactor s))
  else ret tt.

(** The method [scale] of the struct (the kingpin action), its loops cut
    after [fuel] iterations.  The value returned stands for [nil]. *)
Definition scale_scale (env : Env) (fuel : nat) : M unit :=
  s <- get_s ;;
  if String.eqb (patternName s) "burst" then
    logPrintf (LAutoScalePattern (patternName s)) ;;;
    logPrintf (LStarting (max s) (min s) (interval s) None) ;;;
    maxResourceObjects <- updateReplicas addr_max ;;
    minResourceObjects <- updateReplicas addr_min ;;
    burstLoop env maxResourceObjects minResourceObjects fuel
  else if String.eqb (patternName s) "step" then
    logPrintf (LAutoScalePattern (patternName s)) ;;;
    adjustScalingFactor ;;;
    s <- get_s ;;
    logPrintf (LStarting (max s) (min s) (interval s) (Some (scalingFactor s))) ;;;
    set_numberOfResources (min s) ;;;
    stepLoop env fuel
  else
    logPrintf (LInvalidPattern (patternName s)) ;;;
    osExit 2.

(** The process started on the struct [s]: nothing has happened yet. *)
Definition initial (s : scale) : World := mkWorld s 0 0 [].

(** The process observed for [fuel] iterations of its loop. *)
Definition run (env : Env) (fuel : nat) (s : scale) : World * Result unit :=
  scale_scale env fuel (initial s).

(** ** Observations on a run *)

(** The resource sets handed to [ResourceApply], in order. *)
Definition applied (tr : list Event) : list (list Resource) :=
  flat_map (fun e => match e with EvApply rs => [rs] | _ => [] end) tr.

(** The numbers announced by ["Scaling Deployment to %d"], in order. *)
Definition announced (tr : list Event) : list Z :=
  flat_map (fun e => match e with EvLog (LScalingTo n) => [n] | _ => [] end) tr.

(** The [Spec.Replicas] of the Deployments among some objects. *)
Definition replicasOfObjects (objs : list Object) : list int32_ptr :=
  flat_map (fun o => match o with
                     | ODeployment d => [Spec_Replicas d]
                     | OOther _ _ _ => []
                     end) objs.

(** The [Spec.Replicas] of every Deployment of a resource set. *)
Definition replicasOf (rs : list Resource) : list int32_ptr :=
  flat_map (fun r => replicasOfObjects (Objects r)) rs.

(** All objects of a resource set, file after file. *)
Definition allObjects (rs : list Resource) : list Object :=
  flat_map Objects rs.

(** The objects [updateReplicas] treats as deployments. *)
Definition numDeployments (rs : list Resource) : nat :=
  List.length (filter isDeploymentKind (allObjects rs)).

(** Every object whose kind reads "deployment" is an [appsV1.Deployment]:
    the type assertion of [updateReplicas] succeeds on each of them. *)
Definition wellTypedObject (o : Object) : bool :=
  match o with
  | ODeployment _ => true
  | OOther _ _ _ => negb (isDeploymentKind o)
  end.

Definition wellTyped (rs : list Resource) : bool :=
  forallb (fun r => forallb wellTypedObject (Objects r)) rs.

(** A replica pointer is a private cell whose value is within [lo, hi]. *)
Definition cellWithin (lo hi : Z) (p : int32_ptr) : Prop :=
  match p with
  | cell v => lo <= v <= hi
  | _ => False
  end.

(** Whether an event is the report of a failed apply. *)
Definition isStderr (e : Event) : bool :=
  match e with EvStderr => true | _ => false end.

(** A trace without the reports of failed applies. *)
Definition quiet (tr : list Event) : list Event :=
  filter (fun e => negb (isStderr e)) tr.

(** ** The step sequence, read off lines 118-132 *)

(** The factor the step loop runs with (lines 100-114). *)
Definition effectiveFactor (s : scale) : Z :=
  if orb (max s <=? scalingFactor s) (scalingFactor s =? 0)
  then int32_quo (max s) 10
  else scalingFactor s.

(** Lines 129-132 with factor [f]. *)
Definition nextCount (mx f n : Z) : Z :=
  let n' := int32_add n f in
  if mx <? n' then mx else n'.

(** The value of [numberOfResources] at the head of iteration [k]. *)
Definition stepCount (s : scale) (k : nat) : Z :=
  Nat.iter k (nextCount (max s) (effectiveFactor s)) (min s).

(** The value sent at the [n]-th apply of the burst loop. *)
Definition burstCount (s : scale) (n : nat) : Z :=
  if Nat.even n then max s else min s.

(** ** What updateReplicas leaves behind and what it returns *)

(** The loaded object after the call: a Deployment of kind "deployment" has
    its replica pointer replaced by the argument, nothing else changes. *)
Definition repoint (p : int32_ptr) (o : Object) : Object :=
  match o with
  | ODeployment d =>
      if isDeploymentKind o then ODeployment (setSpecReplicas d p) else o
  | OOther _ _ _ => o
  end.

Definition repointAll (p : int32_ptr) (rs : list Resource) : list Resource :=
  map (fun r => mkResource (FileName r) (map (repoint p) (Objects r))) rs.

(** The private pointer a deep copy holds when the original holds [p]. *)
Definition copyPtr (w : World) (p : int32_ptr) : int32_ptr :=
  match load w p with
  | Some v => cell v
  | None => nil_ptr
  end.

(** The objects returned for one file when every copy holds [q]. *)
Definition copiesOfObjects (q : int32_ptr) (objs : list Object) : list Object :=
  map (repoint q) (filter isDeploymentKind objs).

(** The resource set returned when every copy holds [q]: files without a
    deployment are left out. *)
Definition copiesOf (q : int32_ptr) (rs : list Resource) : list Resource :=
  flat_map (fun r =>
              match copiesOfObjects q (Objects r) with
              | [] => []
              | objs => [mkResource (FileName r) objs]
              end) rs.

(** [setReplicas] as the specification words it: the deployment objects,
    copied, with their replica field set to [count]; the other objects are
    dropped. *)
Definition setReplicas_spec (count : Z) (objs : list Object) : list Object :=
  flat_map (fun o =>
              if isDeploymentKind o then
                match o with
                | ODeployment d =>
                    [ODeployment (mkDeployment (d_Kind d) (d_Name d) (d_Rest d) (cell count))]
                | OOther _ _ _ => [o]
                end
              else []) objs.

(** An object with the one field [updateReplicas] may write blanked: the
    replica pointer of a Deployment of kind "deployment".  What is left is
    every other field of every object, together with its dynamic type. *)
Definition eraseReplicas (o : Object) : Object := repoint nil_ptr o.

(** A resource set with every replica field blanked. *)
Definition frameOf (rs : list Resource) : list Resource :=
  map (fun r => mkResource (FileName r) (map eraseReplicas (Objects r))) rs.

Definition setResources (w : World) (rs : list Resource) : World :=
  mkWorld (with_resources (w_s w) rs) (w_numberOfResources w) (w_calls w) (w_trace w).

(** ** The effects of a run, written out *)

(** The report that follows the call numbered [call]. *)
Definition reportOf (env : Env) (call : nat) : list Event :=
  if env call then [EvStderr] else [].

(** The effects of [fuel] iterations of the burst loop, for the maximum
    [mx], the minimum [mn] and the interval [itv]. *)
Fixpoint burstTrace (env : Env) (mx mn itv : Z) (mxRO mnRO : list Resource)
    (calls fuel : nat) : list Event :=
  match fuel with
  | O => []
  | S k =>
      [EvLog (LScalingTo mx); EvApply mxRO] ++ reportOf env calls
      ++ [EvSleep itv; EvLog (LScalingTo mn); EvApply mnRO]
      ++ reportOf env (S calls)
      ++ [EvSleep itv]
      ++ burstTrace env mx mn itv mxRO mnRO (S (S calls)) k
  end.

(** The effects of [fuel] iterations of the step loop started with
    [numberOfResources = n], for the interval [itv], the maximum [mx] and
    the factor [f]. *)
Fixpoint stepTrace (env : Env) (itv mx f : Z) (ts : list Resource)
    (n : Z) (calls fuel : nat) : list Event :=
  match fuel with
  | O => []
  | S k =>
      [EvLog (LScalingTo n); EvApply (copiesOf (cell n) ts)] ++ reportOf env calls
      ++ [EvSleep itv]
      ++ stepTrace env itv mx f ts (nextCount mx f n) (S calls) k
  end.

(** The loaded resources after [fuel] iterations of the step loop. *)
Definition stepStore (ts : list Resource) (fuel : nat) : list Resource :=
  match fuel with
  | O => ts
  | S _ => repointAll addr_numberOfResources ts
  end.

(** What lines 100-114 print. *)
Definition factorLogs (s : scale) : list Event :=
  (if max s <=? scalingFactor s
   then [EvLog (LFactorGeMax (scalingFactor s) (max s))] else [])
  ++ (if scalingFactor s =? 0 then [EvLog LFactorZero] else [])
  ++ (if orb (max s <=? scalingFactor s) (scalingFactor s =? 0)
      then [EvLog (LUpdatingFactor (int32_quo (max s) 10))] else []).

(** What the burst branch prints before its loop. *)
Definition burstStartup (s : scale) : list Event :=
  [EvLog (LAutoScalePattern (patternName s));
   EvLog (LStarting (max s) (min s) (interval s) None)].

(** What the step branch prints before its loop. *)
Definition stepStartup (s : scale) : list Event :=
  [EvLog (LAutoScalePattern (patternName s))] ++ factorLogs s
  ++ [EvLog (LStarting (max s) (min s) (interval s) (Some (effectiveFactor s)))].

(** The world when the step loop is entered. *)
Definition stepEntry (s : scale) : World :=
  mkWorld (with_scalingFactor s (effectiveFactor s)) (min s) 0 (stepStartup s).

(** The loaded resources as a panicking [updateReplicas p] leaves them. *)
Definition panicStore (s : scale) (n : Z) (p : int32_ptr) : list Resource :=
  fst (updateResources (mkWorld s n 0 []) p (resources (k8sClient s)) []).

(** A trace of an error-free run, with the report of each failed apply put
    right after it; [c] numbers the next apply. *)
Fixpoint withReports (env : Env) (c : nat) (tr : list Event) : list Event :=
  match tr with
  | [] => []
  | EvApply rs :: rest => EvApply rs :: reportOf env c ++ withReports env (S c) rest
  | e :: rest => e :: withReports env c rest
  end.

(** ** Worked inputs *)

Definition noErrors : Env := fun _ => false.

(** A manifest directory with one Deployment next to other objects. *)
Definition manifests : list Resource :=
  [mkResource "fake-webserver.yaml"
     [OOther "Service" "fake-webserver" "ports: 8080";
      ODeployment (mkDeployment "Deployment" "fake-webserver" "image: fake-webserver" (cell 1))];
   mkResource "config.yaml" [OOther "ConfigMap" "scaler-config" "data"]].

(** A manifest whose Deployment belongs to another API group version: the
    decoder yields an object of kind "Deployment" that is not an
    [appsV1.Deployment]. *)
Definition legacyManifests : list Resource :=
  [mkResource "legacy.yaml" [OOther "Deployment" "web" "apiVersion: apps/v1beta1"]].

Definition command (ts : list Resource) (mx mn : Z) (pat : string) (f : Z) : scale :=
  mkScale (mkK8s ts) mn mx 1000 pat f.

(** ** Further observations *)

(** The durations handed to [time.Sleep], in order. *)
Definition sleeps (tr : list Event) : list Z :=
  flat_map (fun e => match e with EvSleep d => [d] | _ => [] end) tr.

(** Whether a file holds an object of kind "deployment". *)
Definition hasDeployment (r : Resource) : bool :=
  existsb isDeploymentKind (Objects r).

(** The replica pointers of the loaded objects that [updateReplicas] writes:
    those of the Deployments of kind "deployment". *)
Definition scaledReplicas (rs : list Resource) : list int32_ptr :=
  replicasOfObjects (filter isDeploymentKind (allObjects rs)).

(** Whether an event is a call to the cluster or a sleep. *)
Definition isApplyOrSleep (e : Event) : bool :=
  match e with
  | EvApply _ | EvSleep _ => true
  | _ => false
  end.

(** The calls to the cluster and the sleeps of a trace, in order. *)
Definition pacing (tr : list Event) : list Event := filter isApplyOrSleep tr.

(** * Properties *)

(** ** updateReplicas *)

Lemma isDeploymentKind_repoint (p : int32_ptr) (o : Object) :
  isDeploymentKind (repoint p o) = isDeploymentKind o.
Proof.
  destruct o as [d|k n r]; simpl; [|reflexivity].
  destruct (isDeploymentKind (ODeployment d)) eqn:E; [|exact E].
  exact E.
Qed.

Lemma wellTypedObject_repoint (p : int32_ptr) (o : Object) :
  wellTypedObject (repoint p o) = wellTypedObject o.
Proof.
  destruct o as [d|k n r]; simpl; [|reflexivity].
  destruct (isDeploymentKind (ODeployment d)); reflexivity.
Qed.

Lemma repoint_repoint (p q : int32_ptr) (o : Object) :
  repoint q (repoint p o) = repoint q o.
Proof.
  destruct o as [d|k n r]; simpl; [|reflexivity].
  destruct (isDeploymentKind (ODeployment d)) eqn:E; simpl.
  - unfold isDeploymentKind in *. simpl in *. rewrite E. reflexivity.
  - rewrite E. reflexivity.
Qed.

Lemma eraseReplicas_repoint (p : int32_ptr) (o : Object) :
  eraseReplicas (repoint p o) = eraseReplicas o.
Proof. apply repoint_repoint. Qed.

Lemma DeepCopy_setSpecReplicas (w : World) (d : Deployment) (p : int32_ptr) :
  DeepCopy w (setSpecReplicas d p) = setSpecReplicas d (copyPtr w p).
Proof. reflexivity. Qed.

(** On objects that pass the type assertion the inner loop runs to its end. *)
Lemma updateObjects_typed (w : World) (p : int32_ptr) (objs acc : list Object) :
  forallb wellTypedObject objs = true ->
  updateObjects w p objs acc
  = (map (repoint p) objs, Some (acc ++ copiesOfObjects (copyPtr w p) objs)).
Proof.
  revert acc. induction objs as [|o objs IH]; intros acc H; simpl.
  - unfold copiesOfObjects. simpl. rewrite app_nil_r. reflexivity.
  - simpl in H. apply andb_true_iff in H. destruct H as [Ho Hs].
    unfold copiesOfObjects. simpl.
    destruct (isDeploymentKind o) eqn:E.
    + destruct o as [d|k n r].
      * rewrite (IH _ Hs). simpl. rewrite E.
        rewrite DeepCopy_setSpecReplicas. unfold copiesOfObjects.
        rewrite <- app_assoc. reflexivity.
      * simpl in Ho. rewrite E in Ho. discriminate.
    + rewrite (IH _ Hs).
      destruct o as [d|k n r]; simpl; try rewrite E; reflexivity.
Qed.

(** On the first object of kind "deployment" that is not an
    [appsV1.Deployment] the inner loop panics. *)
Lemma updateObjects_untyped (w : World) (p : int32_ptr) (objs acc : list Object) :
  forallb wellTypedObject objs = false ->
  snd (updateObjects w p objs acc) = None.
Proof.
  revert acc. induction objs as [|o objs IH]; intros acc H; simpl in *.
  - discriminate.
  - destruct (isDeploymentKind o) eqn:E.
    + destruct o as [d|k n r]; [|reflexivity].
      simpl in H. specialize (IH (acc ++ [ODeployment (DeepCopy w (setSpecReplicas d p))]) H).
      destruct (updateObjects w p objs _). exact IH.
    + assert (Ho : wellTypedObject o = true).
      { destruct o; simpl; [reflexivity|]. rewrite E. reflexivity. }
      rewrite Ho in H. simpl in H. specialize (IH acc H).
      destruct (updateObjects w p objs acc). exact IH.
Qed.

(** Whatever happens, the inner loop changes replica fields only. *)
Lemma updateObjects_frame (w : World) (p : int32_ptr) (objs acc : list Object) :
  map eraseReplicas (fst (updateObjects w p objs acc)) = map eraseReplicas objs.
Proof.
  revert acc. induction objs as [|o objs IH]; intros acc; simpl.
  - reflexivity.
  - destruct (isDeploymentKind o) eqn:E.
    + destruct o as [d|k n r]; [|reflexivity].
      specialize (IH (acc ++ [ODeployment (DeepCopy w (setSpecReplicas d p))])).
      destruct (updateObjects w p objs _). cbn [fst map] in *. rewrite IH. f_equal.
      pose proof (eraseReplicas_repoint p (ODeployment d)) as Hr.
      cbn [repoint] in Hr. rewrite E in Hr. exact Hr.
    + specialize (IH acc). destruct (updateObjects w p objs acc).
      simpl in *. rewrite IH. reflexivity.
Qed.

Lemma updateResources_typed (w : World) (p : int32_ptr) (rs acc : list Resource) :
  wellTyped rs = true ->
  updateResources w p rs acc
  = (repointAll p rs, Some (acc ++ copiesOf (copyPtr w p) rs)).
Proof.
  revert acc. induction rs as [|r rs IH]; intros acc H; simpl.
  - rewrite app_nil_r. reflexivity.
  - simpl in H. apply andb_true_iff in H. destruct H as [Hr Hs].
    rewrite (updateObjects_typed _ _ _ _ Hr). simpl.
    rewrite (IH _ Hs).
    destruct (copiesOfObjects (copyPtr w p) (Objects r)) eqn:E; simpl.
    + reflexivity.
    + rewrite <- app_assoc. reflexivity.
Qed.

Lemma updateResources_untyped (w : World) (p : int32_ptr) (rs acc : list Resource) :
  wellTyped rs = false ->
  snd (updateResources w p rs acc) = None.
Proof.
  revert acc. induction rs as [|r rs IH]; intros acc H; simpl in *.
  - discriminate.
  - destruct (forallb wellTypedObject (Objects r)) eqn:Hr.
    + simpl in H. rewrite (updateObjects_typed _ _ _ _ Hr).
      match goal with
      | |- context [updateResources w p rs ?a] =>
          specialize (IH a H); destruct (updateResources w p rs a)
      end.
      exact IH.
    + pose proof (updateObjects_untyped w p (Objects r) [] Hr) as Hn.
      destruct (updateObjects w p (Objects r) []) as [objs' [res|]]; simpl in Hn.
      * discriminate.
      * reflexivity.
Qed.

Lemma updateResources_frame (w : World) (p : int32_ptr) (rs acc : list Resource) :
  frameOf (fst (updateResources w p rs acc)) = frameOf rs.
Proof.
  revert acc. induction rs as [|r rs IH]; intros acc; simpl.
  - reflexivity.
  - pose proof (updateObjects_frame w p (Objects r) []) as Hf.
    destruct (updateObjects w p (Objects r) []) as [objs' [res|]]; simpl in *.
    + match goal with
      | |- context [updateResources w p rs ?a] =>
          specialize (IH a); destruct (updateResources w p rs a)
      end.
      simpl in *. rewrite Hf, IH. reflexivity.
    + rewrite Hf. reflexivity.
Qed.

Lemma wellTyped_repointAll (p : int32_ptr) (rs : list Resource) :
  wellTyped (repointAll p rs) = wellTyped rs.
Proof.
  induction rs as [|r rs IH]; simpl; [reflexivity|].
  rewrite IH. f_equal.
  induction (Objects r) as [|o objs IHo]; simpl; [reflexivity|].
  rewrite wellTypedObject_repoint, IHo. reflexivity.
Qed.

Lemma copiesOfObjects_repoint (p q : int32_ptr) (objs : list Object) :
  copiesOfObjects q (map (repoint p) objs) = copiesOfObjects q objs.
Proof.
  unfold copiesOfObjects.
  induction objs as [|o objs IH]; simpl; [reflexivity|].
  rewrite isDeploymentKind_repoint.
  destruct (isDeploymentKind o); simpl; rewrite IH; [|reflexivity].
  rewrite repoint_repoint. reflexivity.
Qed.

Lemma copiesOf_repointAll (p q : int32_ptr) (rs : list Resource) :
  copiesOf q (repointAll p rs) = copiesOf q rs.
Proof.
  induction rs as [|r rs IH]; simpl; [reflexivity|].
  rewrite IH, copiesOfObjects_repoint. reflexivity.
Qed.

Lemma repointAll_repointAll (p q : int32_ptr) (rs : list Resource) :
  repointAll q (repointAll p rs) = repointAll q rs.
Proof.
  induction rs as [|r rs IH]; simpl; [reflexivity|].
  rewrite IH. f_equal. f_equal.
  rewrite map_map. apply map_ext. intros o. apply repoint_repoint.
Qed.

Lemma frameOf_repointAll (p : int32_ptr) (rs : list Resource) :
  frameOf (repointAll p rs) = frameOf rs.
Proof.
  induction rs as [|r rs IH]; simpl; [reflexivity|].
  rewrite IH. f_equal. f_equal.
  rewrite map_map. apply map_ext. intros o. apply eraseReplicas_repoint.
Qed.

Lemma replicasOfObjects_copies (q : int32_ptr) (objs : list Object) :
  forallb wellTypedObject objs = true ->
  replicasOfObjects (copiesOfObjects q objs)
  = repeat q (List.length (filter isDeploymentKind objs)).
Proof.
  unfold copiesOfObjects, replicasOfObjects.
  induction objs as [|o objs IH]; intros H; simpl in *; [reflexivity|].
  apply andb_true_iff in H. destruct H as [Ho Hs].
  destruct (isDeploymentKind o) eqn:E; simpl.
  - destruct o as [d|k n r]; simpl in *.
    + rewrite E. simpl. rewrite (IH Hs). reflexivity.
    + rewrite E in Ho. discriminate.
  - exact (IH Hs).
Qed.

Lemma replicasOf_copiesOf (q : int32_ptr) (rs : list Resource) :
  wellTyped rs = true ->
  replicasOf (copiesOf q rs) = repeat q (numDeployments rs).
Proof.
  unfold numDeployments, allObjects, replicasOf.
  induction rs as [|r rs IH]; intros H; simpl in *; [reflexivity|].
  apply andb_true_iff in H. destruct H as [Hr Hs].
  rewrite flat_map_app, filter_app, length_app, repeat_app.
  rewrite <- (IH Hs), <- (replicasOfObjects_copies q _ Hr).
  destruct (copiesOfObjects q (Objects r)) eqn:E; simpl.
  - reflexivity.
  - rewrite app_nil_r. reflexivity.
Qed.

(** The call on a world whose resources pass the type assertion. *)
Lemma updateReplicas_typed (p : int32_ptr) (w : World) :
  wellTyped (resources (k8sClient (w_s w))) = true ->
  updateReplicas p w
  = (setResources w (repointAll p (resources (k8sClient (w_s w)))),
     Ret (copiesOf (copyPtr w p) (resources (k8sClient (w_s w))))).
Proof.
  intros H. unfold updateReplicas.
  rewrite (updateResources_typed _ _ _ _ H). reflexivity.
Qed.

(** ** The loops on resources that pass the type assertion *)

(** One effect at a time: how each primitive acts in front of a
    continuation. *)
Lemma bind_get_s {B} (k : scale -> M B) (w : World) :
  (x <- get_s ;; k x) w = k (w_s w) w.
Proof. reflexivity. Qed.

Lemma bind_get_numberOfResources {B} (k : Z -> M B) (w : World) :
  (x <- get_numberOfResources ;; k x) w = k (w_numberOfResources w) w.
Proof. reflexivity. Qed.

Lemma bind_set_numberOfResources {B} (n : Z) (k : unit -> M B) (w : World) :
  (x <- set_numberOfResources n ;; k x) w
  = k tt (mkWorld (w_s w) n (w_calls w) (w_trace w)).
Proof. reflexivity. Qed.

Lemma bind_set_s {B} (s : scale) (k : unit -> M B) (w : World) :
  (x <- set_s s ;; k x) w
  = k tt (mkWorld s (w_numberOfResources w) (w_calls w) (w_trace w)).
Proof. reflexivity. Qed.

Lemma bind_ret {A B} (a : A) (k : A -> M B) (w : World) :
  (x <- ret a ;; k x) w = k a w.
Proof. reflexivity. Qed.

Lemma bind_emit {B} (e : Event) (k : unit -> M B) (w : World) :
  (x <- emit e ;; k x) w
  = k tt (mkWorld (w_s w) (w_numberOfResources w) (w_calls w) (w_trace w ++ [e])).
Proof. reflexivity. Qed.

Lemma bind_applyAndReport {B} (env : Env) (rs : list Resource)
    (k : unit -> M B) (w : World) :
  (x <- applyAndReport env rs ;; k x) w
  = k tt (mkWorld (w_s w) (w_numberOfResources w) (S (w_calls w))
            (w_trace w ++ EvApply rs :: reportOf env (w_calls w))).
Proof.
  unfold applyAndReport, ResourceApply, bind, reportOf, emit, ret.
  cbn [w_s w_numberOfResources w_calls w_trace].
  destruct (env (w_calls w)); cbn [w_s w_numberOfResources w_calls w_trace].
  - rewrite <- app_assoc. reflexivity.
  - reflexivity.
Qed.

Lemma bind_assoc {A B C} (m : M A) (f : A -> M B) (g : B -> M C) (w : World) :
  (y <- (x <- m ;; f x) ;; g y) w = (x <- m ;; y <- f x ;; g y) w.
Proof. unfold bind. destruct (m w) as [w' [a| | |]]; reflexivity. Qed.

Ltac mstep :=
  repeat first
    [ rewrite bind_assoc
    | rewrite bind_get_s
    | rewrite bind_get_numberOfResources
    | rewrite bind_set_numberOfResources
    | rewrite bind_set_s
    | rewrite bind_applyAndReport
    | rewrite bind_ret
    | unfold logPrintf, Sleep; rewrite bind_emit ];
  cbn [w_s w_numberOfResources w_calls w_trace].

Lemma burstLoop_run (env : Env) (mxRO mnRO : list Resource) (fuel : nat) (w : World) :
  burstLoop env mxRO mnRO fuel w
  = (mkWorld (w_s w) (w_numberOfResources w) (w_calls w + 2 * fuel)
       (w_trace w ++ burstTrace env (max (w_s w)) (min (w_s w)) (interval (w_s w))
                     mxRO mnRO (w_calls w) fuel),
     Running).
Proof.
  revert w. induction fuel as [|k IH]; intros [s n c tr].
  - simpl. rewrite app_nil_r, Nat.add_0_r. reflexivity.
  - cbn [burstLoop]. mstep. rewrite IH.
    cbn [w_s w_numberOfResources w_calls w_trace burstTrace].
    repeat rewrite <- app_assoc. cbn [app].
    f_equal. f_equal. lia.
Qed.

Lemma bind_updateReplicas_typed {B} (p : int32_ptr) (k : list Resource -> M B) (w : World) :
  wellTyped (resources (k8sClient (w_s w))) = true ->
  (x <- updateReplicas p ;; k x) w
  = k (copiesOf (copyPtr w p) (resources (k8sClient (w_s w))))
      (setResources w (repointAll p (resources (k8sClient (w_s w))))).
Proof.
  intros H. unfold bind at 1. rewrite (updateReplicas_typed p w H). reflexivity.
Qed.

Lemma stepTrace_repointAll (env : Env) (itv mx f : Z) (p : int32_ptr)
    (ts : list Resource) (n : Z) (calls fuel : nat) :
  stepTrace env itv mx f (repointAll p ts) n calls fuel
  = stepTrace env itv mx f ts n calls fuel.
Proof.
  revert n calls. induction fuel as [|k IH]; intros n calls; simpl; [reflexivity|].
  rewrite IH, copiesOf_repointAll. reflexivity.
Qed.

Lemma stepLoop_run (env : Env) (fuel : nat) (w : World) :
  wellTyped (resources (k8sClient (w_s w))) = true ->
  stepLoop env fuel w
  = (mkWorld
       (with_resources (w_s w) (stepStore (resources (k8sClient (w_s w))) fuel))
       (Nat.iter fuel (nextCount (max (w_s w)) (scalingFactor (w_s w)))
          (w_numberOfResources w))
       (w_calls w + fuel)
       (w_trace w
        ++ stepTrace env (interval (w_s w)) (max (w_s w)) (scalingFactor (w_s w))
             (resources (k8sClient (w_s w))) (w_numberOfResources w) (w_calls w) fuel),
     Running).
Proof.
  revert w. induction fuel as [|k IH]; intros [[[ts] mn mx itv pat f] n c tr] H.
  - simpl. rewrite app_nil_r, Nat.add_0_r. reflexivity.
  - cbn [w_s k8sClient resources] in H.
    cbn [stepLoop]. mstep.
    rewrite bind_updateReplicas_typed by exact H.
    unfold setResources, with_resources, copyPtr.
    cbn [load w_s w_numberOfResources w_calls w_trace k8sClient resources
         min max interval patternName scalingFactor].
    mstep.
    cbn [min max interval patternName scalingFactor k8sClient resources].
    rewrite Nat.iter_succ_r.
    assert (Hn : forall w',
      (if mx <? int32_add n f then set_numberOfResources mx else ret tt)
        (mkWorld w' (int32_add n f) (S c)
           ((tr ++ [EvLog (LScalingTo n)])
              ++ EvApply (copiesOf (cell n) ts) :: reportOf env c ++ [EvSleep itv])
         ) = (mkWorld w' (nextCount mx f n) (S c)
           ((tr ++ [EvLog (LScalingTo n)])
              ++ EvApply (copiesOf (cell n) ts) :: reportOf env c ++ [EvSleep itv]), Ret tt)).
    { intros w'. unfold nextCount. destruct (mx <? int32_add n f); reflexivity. }
    unfold bind at 1.
    repeat rewrite <- app_assoc. cbn [app].
    repeat rewrite <- app_assoc in Hn. cbn [app] in Hn.
    rewrite Hn.
    rewrite IH by (cbn [w_s k8sClient resources]; rewrite wellTyped_repointAll; exact H).
    cbn [w_s w_numberOfResources w_calls w_trace k8sClient resources
         min max interval patternName scalingFactor stepTrace stepStore].
    rewrite stepTrace_repointAll.
    unfold with_resources.
    cbn [w_s w_numberOfResources w_calls w_trace k8sClient resources
         min max interval patternName scalingFactor].
    repeat rewrite <- app_assoc. cbn [app].
    f_equal. f_equal.
    + f_equal. f_equal. destruct k; simpl; [reflexivity|].
      apply repointAll_repointAll.
    + lia.
    + rewrite <- app_assoc. reflexivity.
Qed.

(** ** The whole of scale *)

Lemma adjustScalingFactor_run (w : World) :
  adjustScalingFactor w
  = (mkWorld (with_scalingFactor (w_s w) (effectiveFactor (w_s w)))
       (w_numberOfResources w) (w_calls w) (w_trace w ++ factorLogs (w_s w)),
     Ret tt).
Proof.
  destruct w as [[cl mn mx itv pat f] n c tr].
  unfold adjustScalingFactor, effectiveFactor, factorLogs, with_scalingFactor.
  mstep. cbn [min max interval patternName scalingFactor k8sClient].
  destruct (mx <=? f) eqn:E1; destruct (f =? 0) eqn:E2; mstep;
    cbn [orb Bool.eqb app min max interval patternName scalingFactor k8sClient];
    mstep; unfold emit;
    cbn [w_s w_numberOfResources w_calls w_trace
         min max interval patternName scalingFactor k8sClient];
    repeat rewrite <- app_assoc; cbn [app]; try rewrite app_nil_r; reflexivity.
Qed.

Lemma bind_adjustScalingFactor {B} (k : unit -> M B) (w : World) :
  (x <- adjustScalingFactor ;; k x) w
  = k tt (mkWorld (with_scalingFactor (w_s w) (effectiveFactor (w_s w)))
            (w_numberOfResources w) (w_calls w) (w_trace w ++ factorLogs (w_s w))).
Proof. unfold bind at 1. rewrite adjustScalingFactor_run. reflexivity. Qed.

Lemma run_invalid (env : Env) (fuel : nat) (s : scale) :
  patternName s <> "burst"%string -> patternName s <> "step"%string ->
  run env fuel s
  = (mkWorld s 0 0 [EvLog (LInvalidPattern (patternName s))], Exited 2).
Proof.
  intros Hb Hs. unfold run, scale_scale, initial. mstep.
  apply String.eqb_neq in Hb. apply String.eqb_neq in Hs. rewrite Hb, Hs.
  mstep. reflexivity.
Qed.

Lemma run_burst_typed (env : Env) (fuel : nat) (s : scale) :
  patternName s = "burst"%string ->
  wellTyped (resources (k8sClient s)) = true ->
  run env fuel s
  = (mkWorld (with_resources s (repointAll addr_min (resources (k8sClient s))))
       0 (2 * fuel)
       (burstStartup s
        ++ burstTrace env (max s) (min s) (interval s)
             (copiesOf (cell (max s)) (resources (k8sClient s)))
             (copiesOf (cell (min s)) (resources (k8sClient s))) 0 fuel),
     Running).
Proof.
  intros Hp Ht. unfold run, scale_scale, initial. mstep.
  rewrite Hp. cbn [String.eqb Ascii.eqb Bool.eqb]. rewrite <- Hp. mstep.
  rewrite bind_updateReplicas_typed by exact Ht.
  rewrite bind_updateReplicas_typed
    by (cbn [setResources w_s with_resources k8sClient resources];
        rewrite wellTyped_repointAll; exact Ht).
  rewrite burstLoop_run.
  destruct s as [[ts] mn mx itv pat f].
  unfold setResources, with_resources, copyPtr, burstStartup.
  cbn [load w_s w_numberOfResources w_calls w_trace k8sClient resources
       min max interval patternName scalingFactor app Nat.add].
  rewrite repointAll_repointAll, copiesOf_repointAll. reflexivity.
Qed.

Lemma updateResources_load_only (w w' : World) (p : int32_ptr)
    (rs acc : list Resource) :
  load w p = load w' p ->
  updateResources w p rs acc = updateResources w' p rs acc.
Proof.
  intros Hl.
  assert (Ho : forall objs a, updateObjects w p objs a = updateObjects w' p objs a).
  { induction objs as [|o objs IH]; intros a; simpl; [reflexivity|].
    destruct (isDeploymentKind o).
    - destruct o as [d|k n r]; [|reflexivity].
      rewrite !DeepCopy_setSpecReplicas. unfold copyPtr. rewrite Hl, IH. reflexivity.
    - rewrite IH. reflexivity. }
  revert acc. induction rs as [|r rs IH]; intros acc; simpl; [reflexivity|].
  rewrite Ho. destruct (updateObjects w' p (Objects r) []) as [objs' [res|]].
  - rewrite IH. reflexivity.
  - reflexivity.
Qed.

Lemma updateReplicas_untyped_store (p : int32_ptr) (w : World) :
  wellTyped (resources (k8sClient (w_s w))) = false ->
  updateReplicas p w
  = (setResources w (panicStore (w_s w) (w_numberOfResources w) p), Panicked).
Proof.
  intros H. unfold updateReplicas, panicStore.
  pose proof (updateResources_untyped w p _ [] H) as Hn.
  rewrite (updateResources_load_only w
             (mkWorld (w_s w) (w_numberOfResources w) 0 []) p) in * by reflexivity.
  destruct (updateResources _ p (resources (k8sClient (w_s w))) []) as [rs' [res|]];
    simpl in Hn; [discriminate|].
  reflexivity.
Qed.

Lemma frameOf_panicStore (s : scale) (n : Z) (p : int32_ptr) :
  frameOf (panicStore s n p) = frameOf (resources (k8sClient s)).
Proof. apply updateResources_frame. Qed.

Lemma run_burst_untyped (env : Env) (fuel : nat) (s : scale) :
  patternName s = "burst"%string ->
  wellTyped (resources (k8sClient s)) = false ->
  run env fuel s
  = (mkWorld (with_resources s (panicStore s 0 addr_max)) 0 0 (burstStartup s),
     Panicked).
Proof.
  intros Hp Ht. unfold run, scale_scale, initial. mstep.
  rewrite Hp. cbn [String.eqb Ascii.eqb Bool.eqb]. rewrite <- Hp. mstep.
  unfold bind at 1. rewrite updateReplicas_untyped_store by exact Ht.
  reflexivity.
Qed.

Lemma run_step_entry (env : Env) (fuel : nat) (s : scale) :
  patternName s = "step"%string ->
  run env fuel s = stepLoop env fuel (stepEntry s).
Proof.
  intros Hp. unfold run, scale_scale, initial, stepEntry, stepStartup. mstep.
  rewrite Hp. cbn [String.eqb Ascii.eqb Bool.eqb]. rewrite <- Hp. mstep.
  rewrite bind_adjustScalingFactor. mstep.
  destruct s as [[ts] mn mx itv pat f].
  unfold with_scalingFactor.
  cbn [w_s w_numberOfResources w_calls w_trace k8sClient resources
       min max interval patternName scalingFactor app].
  repeat rewrite <- app_assoc. reflexivity.
Qed.

Lemma run_step_typed (env : Env) (fuel : nat) (s : scale) :
  patternName s = "step"%string ->
  wellTyped (resources (k8sClient s)) = true ->
  run env fuel s
  = (mkWorld
       (with_resources (with_scalingFactor s (effectiveFactor s))
          (stepStore (resources (k8sClient s)) fuel))
       (stepCount s fuel) fuel
       (stepStartup s
        ++ stepTrace env (interval s) (max s) (effectiveFactor s)
             (resources (k8sClient s)) (min s) 0 fuel),
     Running).
Proof.
  intros Hp Ht. rewrite (run_step_entry env fuel s Hp).
  rewrite stepLoop_run by exact Ht. reflexivity.
Qed.

Lemma run_step_untyped (env : Env) (fuel : nat) (s : scale) :
  patternName s = "step"%string ->
  wellTyped (resources (k8sClient s)) = false ->
  run env (S fuel) s
  = (mkWorld
       (with_resources (with_scalingFactor s (effectiveFactor s))
          (panicStore (with_scalingFactor s (effectiveFactor s)) (min s)
             addr_numberOfResources))
       (min s) 0 (stepStartup s ++ [EvLog (LScalingTo (min s))]),
     Panicked).
Proof.
  intros Hp Ht. rewrite (run_step_entry env (S fuel) s Hp).
  unfold stepEntry. cbn [stepLoop]. mstep.
  unfold bind at 1. rewrite updateReplicas_untyped_store by exact Ht.
  reflexivity.
Qed.

Lemma run_step_zero (env : Env) (s : scale) :
  patternName s = "step"%string ->
  run env 0 s = (stepEntry s, Running).
Proof. intros Hp. rewrite (run_step_entry env 0 s Hp). reflexivity. Qed.

(** ** Reading the traces *)

Lemma applied_app (a b : list Event) : applied (a ++ b) = applied a ++ applied b.
Proof. apply flat_map_app. Qed.

Lemma announced_app (a b : list Event) : announced (a ++ b) = announced a ++ announced b.
Proof. apply flat_map_app. Qed.

Lemma quiet_app (a b : list Event) : quiet (a ++ b) = quiet a ++ quiet b.
Proof. apply filter_app. Qed.

Lemma applied_reportOf (env : Env) (c : nat) : applied (reportOf env c) = [].
Proof. unfold reportOf. destruct (env c); reflexivity. Qed.

Lemma announced_reportOf (env : Env) (c : nat) : announced (reportOf env c) = [].
Proof. unfold reportOf. destruct (env c); reflexivity. Qed.

Lemma quiet_reportOf (env : Env) (c : nat) : quiet (reportOf env c) = [].
Proof. unfold reportOf. destruct (env c); reflexivity. Qed.

Lemma applied_factorLogs (s : scale) : applied (factorLogs s) = [].
Proof.
  unfold factorLogs.
  destruct (max s <=? scalingFactor s); destruct (scalingFactor s =? 0); reflexivity.
Qed.

Lemma announced_factorLogs (s : scale) : announced (factorLogs s) = [].
Proof.
  unfold factorLogs.
  destruct (max s <=? scalingFactor s); destruct (scalingFactor s =? 0); reflexivity.
Qed.

Lemma quiet_factorLogs (s : scale) : quiet (factorLogs s) = factorLogs s.
Proof.
  unfold factorLogs.
  destruct (max s <=? scalingFactor s); destruct (scalingFactor s =? 0); reflexivity.
Qed.

Lemma applied_stepStartup (s : scale) : applied (stepStartup s) = [].
Proof.
  unfold stepStartup. rewrite !applied_app, applied_factorLogs. reflexivity.
Qed.

Lemma announced_stepStartup (s : scale) : announced (stepStartup s) = [].
Proof.
  unfold stepStartup. rewrite !announced_app, announced_factorLogs. reflexivity.
Qed.

Lemma quiet_stepStartup (s : scale) : quiet (stepStartup s) = stepStartup s.
Proof.
  unfold stepStartup. rewrite !quiet_app, quiet_factorLogs. reflexivity.
Qed.

(** The applies of the step loop: one per iteration, each carrying the
    copies made for the count of that iteration. *)
Lemma applied_stepTrace (env : Env) (itv mx f : Z) (ts : list Resource)
    (n : Z) (c fuel : nat) :
  applied (stepTrace env itv mx f ts n c fuel)
  = map (fun k => copiesOf (cell (Nat.iter k (nextCount mx f) n)) ts) (seq 0 fuel).
Proof.
  revert n c. induction fuel as [|k IH]; intros n c; [reflexivity|].
  cbn [stepTrace]. rewrite !applied_app, applied_reportOf, IH.
  cbn [applied flat_map app seq map Nat.iter nat_rect]. f_equal.
  rewrite <- seq_shift, map_map. apply map_ext. intros j.
  rewrite Nat.iter_succ_r. reflexivity.
Qed.

Lemma announced_stepTrace (env : Env) (itv mx f : Z) (ts : list Resource)
    (n : Z) (c fuel : nat) :
  announced (stepTrace env itv mx f ts n c fuel)
  = map (fun k => Nat.iter k (nextCount mx f) n) (seq 0 fuel).
Proof.
  revert n c. induction fuel as [|k IH]; intros n c; [reflexivity|].
  cbn [stepTrace]. rewrite !announced_app, announced_reportOf, IH.
  cbn [announced flat_map app seq map Nat.iter nat_rect]. f_equal.
  rewrite <- seq_shift, map_map. apply map_ext. intros j.
  rewrite Nat.iter_succ_r. reflexivity.
Qed.

Lemma quiet_stepTrace (env : Env) (itv mx f : Z) (ts : list Resource)
    (n : Z) (c fuel : nat) :
  quiet (stepTrace env itv mx f ts n c fuel)
  = stepTrace (fun _ => false) itv mx f ts n c fuel.
Proof.
  revert n c. induction fuel as [|k IH]; intros n c; [reflexivity|].
  cbn [stepTrace]. rewrite !quiet_app, quiet_reportOf, IH. reflexivity.
Qed.

(** The applies of the burst loop: two per iteration, the maximum set and
    then the minimum set. *)
Lemma applied_burstTrace (env : Env) (mx mn itv : Z) (mxRO mnRO : list Resource)
    (c fuel : nat) :
  applied (burstTrace env mx mn itv mxRO mnRO c fuel)
  = map (fun i => if Nat.even i then mxRO else mnRO) (seq 0 (2 * fuel)).
Proof.
  revert c. induction fuel as [|k IH]; intros c; [reflexivity|].
  cbn [burstTrace]. rewrite !applied_app, !applied_reportOf, IH.
  replace (2 * S k)%nat with (S (S (2 * k))) by lia.
  cbn [applied flat_map app seq map Nat.even]. f_equal. f_equal.
  rewrite <- seq_shift, <- seq_shift, !map_map. apply map_ext. intros j.
  reflexivity.
Qed.

Lemma announced_burstTrace (env : Env) (mx mn itv : Z) (mxRO mnRO : list Resource)
    (c fuel : nat) :
  announced (burstTrace env mx mn itv mxRO mnRO c fuel)
  = map (fun i => if Nat.even i then mx else mn) (seq 0 (2 * fuel)).
Proof.
  revert c. induction fuel as [|k IH]; intros c; [reflexivity|].
  cbn [burstTrace]. rewrite !announced_app, !announced_reportOf, IH.
  replace (2 * S k)%nat with (S (S (2 * k))) by lia.
  cbn [announced flat_map app seq map Nat.even]. f_equal. f_equal.
  rewrite <- seq_shift, <- seq_shift, !map_map. apply map_ext. intros j.
  reflexivity.
Qed.

Lemma quiet_burstTrace (env : Env) (mx mn itv : Z) (mxRO mnRO : list Resource)
    (c fuel : nat) :
  quiet (burstTrace env mx mn itv mxRO mnRO c fuel)
  = burstTrace (fun _ => false) mx mn itv mxRO mnRO c fuel.
Proof.
  revert c. induction fuel as [|k IH]; intros c; [reflexivity|].
  cbn [burstTrace]. rewrite !quiet_app, !quiet_reportOf, IH. reflexivity.
Qed.

Lemma pattern_cases (s : scale) :
  patternName s = "burst"%string
  \/ patternName s = "step"%string
  \/ (patternName s <> "burst"%string /\ patternName s <> "step"%string).
Proof.
  destruct (String.eqb_spec (patternName s) "burst"); [left; assumption|].
  destruct (String.eqb_spec (patternName s) "step"); [right; left; assumption|].
  right; right; split; assumption.
Qed.

(** ** Arithmetic of the step sequence *)

Lemma wrap32_small (z : Z) : INT32_MIN <= z <= INT32_MAX -> wrap32 z = z.
Proof.
  unfold INT32_MIN, INT32_MAX, wrap32. intros H.
  rewrite Z.mod_small; lia.
Qed.

Lemma nextCount_small (mx f n : Z) :
  INT32_MIN <= n + f <= INT32_MAX ->
  nextCount mx f n = Z.min (n + f) mx.
Proof.
  intros H. unfold nextCount, int32_add. rewrite (wrap32_small _ H).
  destruct (Z.ltb_spec mx (n + f)); lia.
Qed.

(** As long as nothing leaves the int32 range the [k]-th count is
    [min (mn + k * f) mx]. *)
Lemma iter_nextCount_formula (mx f mn : Z) (n : nat) :
  mn <= mx -> INT32_MIN <= mn -> mx + f <= INT32_MAX ->
  INT32_MIN <= mn + Z.of_nat n * f ->
  forall k, (k <= n)%nat ->
    Nat.iter k (nextCount mx f) mn = Z.min (mn + Z.of_nat k * f) mx.
Proof.
  intros Hle Hlo Hhi Hn k. induction k as [|k IH]; intros Hk.
  - simpl. lia.
  - cbn [Nat.iter nat_rect]. fold (Nat.iter k (nextCount mx f) mn).
    rewrite IH by lia.
    assert (Hk' : Z.of_nat (S k) * f = Z.of_nat k * f + f) by lia.
    rewrite Hk'.
    assert (Hkn : f < 0 -> Z.of_nat n * f <= Z.of_nat k * f + f) by nia.
    assert (Hpos : 0 <= f -> 0 <= Z.of_nat k * f) by nia.
    assert (Hneg : f < 0 -> Z.of_nat k * f <= 0) by nia.
    remember (Z.of_nat k * f) as K. remember (Z.of_nat n * f) as N.
    rewrite nextCount_small by lia.
    lia.
Qed.

(** With a factor that is not negative the counts stay within [mn, mx]. *)
Lemma iter_nextCount_within (mx f mn : Z) (k : nat) :
  mn <= mx -> INT32_MIN <= mn -> 0 <= f -> mx + f <= INT32_MAX ->
  mn <= Nat.iter k (nextCount mx f) mn <= mx.
Proof.
  intros Hle Hlo Hf Hhi.
  assert (Hpos : 0 <= Z.of_nat k * f) by nia.
  rewrite (iter_nextCount_formula mx f mn k) by (try lia; auto).
  lia.
Qed.

(** With the factor 0 the count never moves. *)
Lemma iter_nextCount_zero (mx mn : Z) (k : nat) :
  mn <= mx -> INT32_MIN <= mn -> mx <= INT32_MAX ->
  Nat.iter k (nextCount mx 0) mn = mn.
Proof.
  intros Hle Hlo Hhi.
  rewrite (iter_nextCount_formula mx 0 mn k) by (try lia; auto).
  lia.
Qed.

Lemma allObjects_copiesOf (q : int32_ptr) (rs : list Resource) :
  allObjects (copiesOf q rs) = copiesOfObjects q (allObjects rs).
Proof.
  unfold allObjects, copiesOf, copiesOfObjects.
  induction rs as [|r rs IH]; simpl; [reflexivity|].
  rewrite flat_map_app, IH, filter_app, map_app. f_equal.
  fold (copiesOfObjects q (Objects r)).
  destruct (copiesOfObjects q (Objects r)); simpl; [reflexivity|].
  rewrite app_nil_r. reflexivity.
Qed.

(** The copies the code returns are the objects the specification names. *)
Lemma copiesOfObjects_spec (count : Z) (objs : list Object) :
  copiesOfObjects (cell count) objs = setReplicas_spec count objs.
Proof.
  unfold copiesOfObjects, setReplicas_spec.
  induction objs as [|o objs IH]; simpl; [reflexivity|].
  destruct (isDeploymentKind o) eqn:E; simpl; rewrite IH; [|reflexivity].
  destruct o as [d|k n r]; simpl; [|reflexivity].
  rewrite E. reflexivity.
Qed.

Lemma copiesOfObjects_kind (q : int32_ptr) (objs : list Object) (o : Object) :
  In o (copiesOfObjects q objs) -> isDeploymentKind o = true.
Proof.
  unfold copiesOfObjects. intros H. apply in_map_iff in H.
  destruct H as [o' [Ho Hin]]. apply filter_In in Hin. destruct Hin as [_ Hk].
  subst o. rewrite isDeploymentKind_repoint. exact Hk.
Qed.

(** * The claims *)

(** C5 (as amended).  Let the loaded target set be one in which every object
    of kind "deployment" is an [appsV1.Deployment], and let the argument of
    [updateReplicas] point to [count].  Then the call returns; what it
    returns holds exactly the objects of kind "deployment", in order, as
    copies whose replica field is a private cell holding [count]; and no
    object of another kind is in the result.  Files are kept as groups and a
    file without a deployment is left out. *)
Theorem updateReplicas_returns_deployment_copies
    (w : World) (p : int32_ptr) (count : Z) :
  wellTyped (resources (k8sClient (w_s w))) = true ->
  load w p = Some count ->
  exists w' res,
    updateReplicas p w = (w', Ret res)
    /\ allObjects res = setReplicas_spec count (allObjects (resources (k8sClient (w_s w))))
    /\ replicasOf res = repeat (cell count) (numDeployments (resources (k8sClient (w_s w))))
    /\ (forall o, In o (allObjects res) -> isDeploymentKind o = true)
    /\ res = copiesOf (cell count) (resources (k8sClient (w_s w))).
Proof.
  intros Ht Hl.
  exists (setResources w (repointAll p (resources (k8sClient (w_s w))))),
         (copiesOf (cell count) (resources (k8sClient (w_s w)))).
  split.
  - rewrite (updateReplicas_typed p w Ht). unfold copyPtr. rewrite Hl. reflexivity.
  - split; [|split; [|split]].
    + rewrite allObjects_copiesOf. apply copiesOfObjects_spec.
    + apply replicasOf_copiesOf. exact Ht.
    + intros o Ho. rewrite allObjects_copiesOf in Ho.
      exact (copiesOfObjects_kind _ _ _ Ho).
    + reflexivity.
Qed.

Lemma updateReplicas_returns_deployment_copies_witness :
  exists w' res,
    updateReplicas addr_max (initial (command manifests 20 1 "burst" 0)) = (w', Ret res)
    /\ allObjects res = setReplicas_spec 20 (allObjects manifests)
    /\ replicasOf res = repeat (cell 20) (numDeployments manifests)
    /\ (forall o, In o (allObjects res) -> isDeploymentKind o = true)
    /\ res = copiesOf (cell 20) manifests.
Proof.
  apply (updateReplicas_returns_deployment_copies
           (initial (command manifests 20 1 "burst" 0)) addr_max 20);
    reflexivity.
Defined.

(** C5 (as stated) fails: on a target set holding an object of kind
    "Deployment" that is not an [appsV1.Deployment] the call does not return
    anything, it panics at the type assertion. *)
Lemma updateReplicas_foreign_deployment_panics :
  snd (updateReplicas addr_max (initial (command legacyManifests 20 1 "burst" 0)))
  = Panicked
  /\ ~ (exists w' res,
          updateReplicas addr_max (initial (command legacyManifests 20 1 "burst" 0))
          = (w', Ret res)
          /\ allObjects res = setReplicas_spec 20 (allObjects legacyManifests)).
Proof.
  split.
  - reflexivity.
  - intros [w' [res [H _]]]. vm_compute in H. discriminate H.
Qed.

(** C8.  [updateReplicas] and every iteration of either loop leave the
    loaded target set as it was except for the replica field of its
    deployments: the file names, the objects, their order, their dynamic
    types and all their other fields are unchanged, whether the call returns
    or panics, and so are the other fields of the struct. *)
Theorem only_replica_fields_are_rewritten
    (env : Env) (fuel : nat) (s : scale) (p : int32_ptr) (w : World) :
  (frameOf (resources (k8sClient (w_s (fst (updateReplicas p w)))))
   = frameOf (resources (k8sClient (w_s w)))
   /\ fst (updateReplicas p w)
      = setResources w (resources (k8sClient (w_s (fst (updateReplicas p w))))))
  /\ frameOf (resources (k8sClient (w_s (fst (run env fuel s)))))
     = frameOf (resources (k8sClient s)).
Proof.
  split; [split|].
  - unfold updateReplicas.
    pose proof (updateResources_frame w p (resources (k8sClient (w_s w))) []) as Hf.
    destruct (updateResources w p (resources (k8sClient (w_s w))) []) as [rs' [res|]];
      exact Hf.
  - unfold updateReplicas.
    destruct (updateResources w p (resources (k8sClient (w_s w))) []) as [rs' [res|]];
      reflexivity.
  - destruct (pattern_cases s) as [Hb | [Hs | [Hb Hs]]].
    + destruct (wellTyped (resources (k8sClient s))) eqn:Ht.
      * rewrite (run_burst_typed env fuel s Hb Ht). simpl.
        apply frameOf_repointAll.
      * rewrite (run_burst_untyped env fuel s Hb Ht). simpl.
        apply frameOf_panicStore.
    + destruct fuel as [|fuel].
      * rewrite (run_step_zero env s Hs). reflexivity.
      * destruct (wellTyped (resources (k8sClient s))) eqn:Ht.
        -- rewrite (run_step_typed env (S fuel) s Hs Ht). simpl.
           apply frameOf_repointAll.
        -- rewrite (run_step_untyped env fuel s Hs Ht). simpl.
           apply (frameOf_panicStore (with_scalingFactor s (effectiveFactor s))).
    + rewrite (run_invalid env fuel s Hb Hs). reflexivity.
Qed.

(** C6 (as amended).  With a pattern name other than "burst" and "step" the
    process exits with code 2 at once: whatever the observation length, the
    only effect is the line naming the invalid pattern, no apply is issued
    and the loaded resources are untouched.  It is the only exit of [scale]:
    a run that exits has such a pattern name.  And on a target set that
    passes the type assertion of [updateReplicas] it is the only way the
    process stops at all: a run that is no longer in its loop, be it by an
    exit or by a panic, has such a pattern name. *)
Theorem invalid_pattern_exits_before_any_apply (env : Env) (fuel : nat) (s : scale) :
  (patternName s <> "burst"%string -> patternName s <> "step"%string ->
     snd (run env fuel s) = Exited 2
     /\ 2 <> 0
     /\ w_trace (fst (run env fuel s)) = [EvLog (LInvalidPattern (patternName s))]
     /\ applied (w_trace (fst (run env fuel s))) = []
     /\ w_s (fst (run env fuel s)) = s)
  /\ (forall code, snd (run env fuel s) = Exited code ->
        patternName s <> "burst"%string /\ patternName s <> "step"%string)
  /\ (wellTyped (resources (k8sClient s)) = true ->
      snd (run env fuel s) <> Running ->
      patternName s <> "burst"%string /\ patternName s <> "step"%string).
Proof.
  split; [|split].
  - intros Hb Hs. rewrite (run_invalid env fuel s Hb Hs). simpl.
    repeat split. lia.
  - intros code He.
    destruct (pattern_cases s) as [Hb | [Hs | H]]; [| |exact H]; exfalso.
    + destruct (wellTyped (resources (k8sClient s))) eqn:Ht.
      * rewrite (run_burst_typed env fuel s Hb Ht) in He. discriminate He.
      * rewrite (run_burst_untyped env fuel s Hb Ht) in He. discriminate He.
    + destruct fuel as [|fuel].
      * rewrite (run_step_zero env s Hs) in He. discriminate He.
      * destruct (wellTyped (resources (k8sClient s))) eqn:Ht.
        -- rewrite (run_step_typed env (S fuel) s Hs Ht) in He. discriminate He.
        -- rewrite (run_step_untyped env fuel s Hs Ht) in He. discriminate He.
  - intros Ht Hn.
    destruct (pattern_cases s) as [Hb | [Hs | H]]; [| |exact H]; exfalso; apply Hn.
    + rewrite (run_burst_typed env fuel s Hb Ht). reflexivity.
    + rewrite (run_step_typed env fuel s Hs Ht). reflexivity.
Qed.

Lemma invalid_pattern_exits_before_any_apply_witness :
  snd (run noErrors 3 (command manifests 20 1 "foo" 0)) = Exited 2
  /\ 2 <> 0
  /\ w_trace (fst (run noErrors 3 (command manifests 20 1 "foo" 0)))
     = [EvLog (LInvalidPattern "foo")]
  /\ applied (w_trace (fst (run noErrors 3 (command manifests 20 1 "foo" 0)))) = []
  /\ w_s (fst (run noErrors 3 (command manifests 20 1 "foo" 0)))
     = command manifests 20 1 "foo" 0.
Proof.
  apply (proj1 (invalid_pattern_exits_before_any_apply noErrors 3
                  (command manifests 20 1 "foo" 0)));
    discriminate.
Defined.

(** C6 (as stated) fails: the invalid pattern name is not the only failure
    at startup.  With the valid pattern name "step" and a manifest whose
    Deployment is not an [appsV1.Deployment], the process is dead as soon as
    the loop is entered, by the panic of the type assertion, and no apply
    has been issued. *)
Lemma valid_pattern_fails_at_startup_on_foreign_deployment :
  patternName (command legacyManifests 20 1 "step" 0) = "step"%string
  /\ forall fuel,
       snd (run noErrors (S fuel) (command legacyManifests 20 1 "step" 0)) = Panicked
       /\ snd (run noErrors (S fuel) (command legacyManifests 20 1 "step" 0)) <> Running
       /\ applied (w_trace (fst (run noErrors (S fuel)
                                   (command legacyManifests 20 1 "step" 0)))) = [].
Proof.
  split; [reflexivity|]. intros fuel.
  rewrite (run_step_untyped noErrors fuel (command legacyManifests 20 1 "step" 0)
             eq_refl eq_refl).
  cbn [fst snd w_trace]. split; [reflexivity|]. split; [discriminate|].
  rewrite applied_app, applied_stepStartup. reflexivity.
Qed.

(** ** Failed applies *)

Lemma withReports_quiet_prefix (env : Env) (c : nat) (a b : list Event) :
  applied a = [] ->
  withReports env c (a ++ b) = a ++ withReports env c b.
Proof.
  induction a as [|e a IH]; intros H; [reflexivity|].
  destruct e; simpl in *; try discriminate; rewrite (IH H); reflexivity.
Qed.

Lemma withReports_quiet_only (env : Env) (c : nat) (a : list Event) :
  applied a = [] -> withReports env c a = a.
Proof.
  intros H. rewrite <- (app_nil_r a) at 1.
  rewrite (withReports_quiet_prefix env c a [] H). apply app_nil_r.
Qed.

Lemma withReports_burstTrace (env : Env) (mx mn itv : Z) (mxRO mnRO : list Resource)
    (c fuel : nat) :
  withReports env c (burstTrace noErrors mx mn itv mxRO mnRO c fuel)
  = burstTrace env mx mn itv mxRO mnRO c fuel.
Proof.
  revert c. induction fuel as [|k IH]; intros c; [reflexivity|].
  simpl. rewrite IH. repeat rewrite <- app_assoc. reflexivity.
Qed.

Lemma withReports_stepTrace (env : Env) (itv mx f : Z) (ts : list Resource)
    (n : Z) (c fuel : nat) :
  withReports env c (stepTrace noErrors itv mx f ts n c fuel)
  = stepTrace env itv mx f ts n c fuel.
Proof.
  revert n c. induction fuel as [|k IH]; intros n c; [reflexivity|].
  simpl. rewrite IH. repeat rewrite <- app_assoc. reflexivity.
Qed.

Lemma applied_withReports (env : Env) (c : nat) (tr : list Event) :
  applied (withReports env c tr) = applied tr.
Proof.
  revert c. induction tr as [|e tr IH]; intros c; [reflexivity|].
  destruct e; simpl; try apply IH.
  f_equal. rewrite applied_app, applied_reportOf. apply IH.
Qed.

Lemma announced_withReports (env : Env) (c : nat) (tr : list Event) :
  announced (withReports env c tr) = announced tr.
Proof.
  revert c. induction tr as [|e tr IH]; intros c; [reflexivity|].
  destruct e as [l|rs| |d]; simpl.
  - destruct l; simpl; try apply IH. f_equal. apply IH.
  - rewrite announced_app, announced_reportOf. apply IH.
  - apply IH.
  - apply IH.
Qed.

Lemma quiet_withReports (env : Env) (c : nat) (tr : list Event) :
  quiet tr = tr -> quiet (withReports env c tr) = tr.
Proof.
  revert c. induction tr as [|e tr IH]; intros c H; [reflexivity|].
  assert (Hq : quiet tr = tr /\ isStderr e = false).
  { unfold quiet in *. simpl in H. destruct (isStderr e) eqn:E; simpl in H.
    - exfalso.
      assert (Hl : (List.length (filter (fun e => negb (isStderr e)) tr)
                    <= List.length tr)%nat) by apply filter_length_le.
      rewrite H in Hl. simpl in Hl. lia.
    - split; [congruence | reflexivity]. }
  destruct Hq as [Hq He].
  destruct e; simpl in *; try discriminate.
  - unfold quiet in *. simpl. rewrite (IH c Hq). reflexivity.
  - unfold quiet in *. simpl. f_equal. rewrite filter_app.
    fold (quiet (reportOf env c)). rewrite quiet_reportOf. apply (IH (S c) Hq).
  - unfold quiet in *. simpl. rewrite (IH c Hq). reflexivity.
Qed.

Lemma quiet_burstTrace_noErrors (mx mn itv : Z) (mxRO mnRO : list Resource) (c fuel : nat) :
  quiet (burstTrace noErrors mx mn itv mxRO mnRO c fuel)
  = burstTrace noErrors mx mn itv mxRO mnRO c fuel.
Proof. apply quiet_burstTrace. Qed.

Lemma quiet_stepTrace_noErrors (itv mx f : Z) (ts : list Resource) (n : Z) (c fuel : nat) :
  quiet (stepTrace noErrors itv mx f ts n c fuel)
  = stepTrace noErrors itv mx f ts n c fuel.
Proof. apply quiet_stepTrace. Qed.

(** The trace of an error-free run holds no report. *)
Lemma quiet_run_noErrors (fuel : nat) (s : scale) :
  quiet (w_trace (fst (run noErrors fuel s))) = w_trace (fst (run noErrors fuel s)).
Proof.
  destruct (pattern_cases s) as [Hb | [Hs | [Hb Hs]]].
  - destruct (wellTyped (resources (k8sClient s))) eqn:Ht.
    + rewrite (run_burst_typed noErrors fuel s Hb Ht). cbn [fst w_trace].
      rewrite quiet_app, quiet_burstTrace_noErrors. reflexivity.
    + rewrite (run_burst_untyped noErrors fuel s Hb Ht). reflexivity.
  - destruct fuel as [|fuel].
    + rewrite (run_step_zero noErrors s Hs). cbn [fst w_trace stepEntry].
      apply quiet_stepStartup.
    + destruct (wellTyped (resources (k8sClient s))) eqn:Ht.
      * rewrite (run_step_typed noErrors (S fuel) s Hs Ht). cbn [fst w_trace].
        rewrite quiet_app, quiet_stepStartup, quiet_stepTrace_noErrors. reflexivity.
      * rewrite (run_step_untyped noErrors fuel s Hs Ht). cbn [fst w_trace].
        rewrite quiet_app, quiet_stepStartup. reflexivity.
  - rewrite (run_invalid noErrors fuel s Hb Hs). reflexivity.
Qed.

(** A run under any environment is the error-free run with the reports of
    the failed applies inserted. *)
Lemma run_withReports (env : Env) (fuel : nat) (s : scale) :
  run env fuel s
  = (mkWorld (w_s (fst (run noErrors fuel s)))
       (w_numberOfResources (fst (run noErrors fuel s)))
       (w_calls (fst (run noErrors fuel s)))
       (withReports env 0 (w_trace (fst (run noErrors fuel s)))),
     snd (run noErrors fuel s)).
Proof.
  destruct (pattern_cases s) as [Hb | [Hs | [Hb Hs]]].
  - destruct (wellTyped (resources (k8sClient s))) eqn:Ht.
    + rewrite !(run_burst_typed _ fuel s Hb Ht). cbn [fst snd w_s w_numberOfResources w_calls w_trace].
      rewrite withReports_quiet_prefix by reflexivity.
      rewrite withReports_burstTrace. reflexivity.
    + rewrite !(run_burst_untyped _ fuel s Hb Ht). reflexivity.
  - destruct fuel as [|fuel].
    + rewrite !(run_step_zero _ s Hs). cbn [fst snd w_s w_numberOfResources w_calls w_trace stepEntry].
      rewrite withReports_quiet_only by apply applied_stepStartup.
      reflexivity.
    + destruct (wellTyped (resources (k8sClient s))) eqn:Ht.
      * rewrite !(run_step_typed _ (S fuel) s Hs Ht).
        cbn [fst snd w_s w_numberOfResources w_calls w_trace].
        rewrite withReports_quiet_prefix by apply applied_stepStartup.
        rewrite withReports_stepTrace. reflexivity.
      * rewrite !(run_step_untyped _ fuel s Hs Ht).
        cbn [fst snd w_s w_numberOfResources w_calls w_trace].
        rewrite withReports_quiet_prefix by apply applied_stepStartup.
        reflexivity.
  - rewrite !(run_invalid _ fuel s Hb Hs). reflexivity.
Qed.

Lemma length_applied_run (env : Env) (fuel : nat) (s : scale) :
  wellTyped (resources (k8sClient s)) = true ->
  patternName s = "burst"%string \/ patternName s = "step"%string ->
  snd (run env fuel s) = Running
  /\ (fuel <= List.length (applied (w_trace (fst (run env fuel s)))))%nat.
Proof.
  intros Ht [Hb | Hs].
  - rewrite (run_burst_typed env fuel s Hb Ht). cbn [fst snd w_trace].
    rewrite applied_app, applied_burstTrace.
    cbn [burstStartup applied flat_map app].
    rewrite length_map, length_seq. split; [reflexivity | lia].
  - rewrite (run_step_typed env fuel s Hs Ht). cbn [fst snd w_trace].
    rewrite applied_app, applied_stepStartup, applied_stepTrace.
    cbn [app]. rewrite length_map, length_seq. split; [reflexivity | lia].
Qed.

(** C7.  Under both patterns a failed apply changes nothing but the trace:
    the run under any environment ends as the error-free run does, with the
    same struct, the same number of calls and the same local; its trace is
    the error-free trace with one report on standard error put right after
    each failed apply, so it has the same applies in the same order (no
    retry), the same announcements and the same sleeps (no backoff).  And
    the loop goes on whatever fails: on a target set that passes the type
    assertion it is still running after any number of iterations, each of
    which has issued its applies. *)
Theorem failed_applies_are_reported_and_the_loop_goes_on
    (env : Env) (fuel : nat) (s : scale) :
  snd (run env fuel s) = snd (run noErrors fuel s)
  /\ w_trace (fst (run env fuel s))
     = withReports env 0 (w_trace (fst (run noErrors fuel s)))
  /\ quiet (w_trace (fst (run env fuel s))) = w_trace (fst (run noErrors fuel s))
  /\ applied (w_trace (fst (run env fuel s)))
     = applied (w_trace (fst (run noErrors fuel s)))
  /\ announced (w_trace (fst (run env fuel s)))
     = announced (w_trace (fst (run noErrors fuel s)))
  /\ w_calls (fst (run env fuel s)) = w_calls (fst (run noErrors fuel s))
  /\ w_s (fst (run env fuel s)) = w_s (fst (run noErrors fuel s))
  /\ (wellTyped (resources (k8sClient s)) = true ->
      patternName s = "burst"%string \/ patternName s = "step"%string ->
      snd (run env fuel s) = Running
      /\ (fuel <= List.length (applied (w_trace (fst (run env fuel s)))))%nat).
Proof.
  assert (Hgo : wellTyped (resources (k8sClient s)) = true ->
                patternName s = "burst"%string \/ patternName s = "step"%string ->
                snd (run env fuel s) = Running
                /\ (fuel <= List.length (applied (w_trace (fst (run env fuel s)))))%nat)
    by apply length_applied_run.
  revert Hgo. generalize (run_withReports env fuel s).
  destruct (run env fuel s) as [w r]. intros Hw Hgo.
  injection Hw as Hw' Hr. subst w r.
  cbn [fst snd w_s w_numberOfResources w_calls w_trace] in *.
  split; [reflexivity|]. split; [reflexivity|].
  split; [apply quiet_withReports; apply quiet_run_noErrors|].
  split; [apply applied_withReports|].
  split; [apply announced_withReports|].
  split; [reflexivity|]. split; [reflexivity|].
  exact Hgo.
Qed.

(** Every call failing, the step run of the specification still makes its
    thirteen applies, each followed by its report. *)
Lemma failed_applies_are_reported_and_the_loop_goes_on_witness :
  snd (run (fun _ => true) 13 (command manifests 100 0 "step" 0)) = Running
  /\ (13 <= List.length
              (applied (w_trace (fst (run (fun _ => true) 13
                                        (command manifests 100 0 "step" 0))))))%nat.
Proof.
  apply (failed_applies_are_reported_and_the_loop_goes_on (fun _ => true) 13
           (command manifests 100 0 "step" 0)).
  - reflexivity.
  - right. reflexivity.
Defined.

Lemma nth_error_map_seq {A} (f : nat -> A) (m n : nat) :
  (n < m)%nat -> nth_error (map f (seq 0 m)) n = Some (f n).
Proof.
  intros H. rewrite nth_error_map, nth_error_seq.
  destruct (Nat.ltb_spec n m); [reflexivity | lia].
Qed.

(** C2 (as amended).  Under the burst pattern, on a target set that passes the type
    assertion, the two resource sets are made once, by the two calls of
    [updateReplicas] that precede the loop: one whose deployments all hold
    [max], one whose deployments all hold [min].  The loop then runs without
    end; after [fuel] iterations it has issued [2 * fuel] applies, the n-th
    of which carries the max set when n is even and the min set when n is
    odd, it has announced max, min, max, min, ..., and it has not touched
    the loaded resources again. *)
Theorem burst_alternates_max_min_forever (env : Env) (s : scale) :
  patternName s = "burst"%string ->
  wellTyped (resources (k8sClient s)) = true ->
  exists w1 maxResourceObjects w2 minResourceObjects,
    updateReplicas addr_max (mkWorld s 0 0 (burstStartup s)) = (w1, Ret maxResourceObjects)
    /\ updateReplicas addr_min w1 = (w2, Ret minResourceObjects)
    /\ replicasOf maxResourceObjects
       = repeat (cell (max s)) (numDeployments (resources (k8sClient s)))
    /\ replicasOf minResourceObjects
       = repeat (cell (min s)) (numDeployments (resources (k8sClient s)))
    /\ forall fuel,
         snd (run env fuel s) = Running
         /\ List.length (applied (w_trace (fst (run env fuel s)))) = (2 * fuel)%nat
         /\ announced (w_trace (fst (run env fuel s)))
            = map (burstCount s) (seq 0 (2 * fuel))
         /\ w_s (fst (run env fuel s)) = w_s w2
         /\ forall n, (n < 2 * fuel)%nat ->
              nth_error (applied (w_trace (fst (run env fuel s)))) n
              = Some (if Nat.even n then maxResourceObjects else minResourceObjects).
Proof.
  intros Hp Ht.
  set (ts := resources (k8sClient s)).
  exists (setResources (mkWorld s 0 0 (burstStartup s)) (repointAll addr_max ts)),
         (copiesOf (cell (max s)) ts),
         (setResources (mkWorld s 0 0 (burstStartup s)) (repointAll addr_min ts)),
         (copiesOf (cell (min s)) ts).
  split; [|split; [|split; [|split]]].
  - rewrite updateReplicas_typed by exact Ht. reflexivity.
  - rewrite updateReplicas_typed
      by (cbn [setResources w_s with_resources k8sClient resources];
          rewrite wellTyped_repointAll; exact Ht).
    destruct s as [[ts0] mn mx itv pat f]. unfold ts, setResources, with_resources, copyPtr.
    cbn [load w_s w_numberOfResources w_calls w_trace k8sClient resources
         min max interval patternName scalingFactor].
    rewrite repointAll_repointAll, copiesOf_repointAll. reflexivity.
  - apply replicasOf_copiesOf. exact Ht.
  - apply replicasOf_copiesOf. exact Ht.
  - intros fuel. rewrite (run_burst_typed env fuel s Hp Ht).
    cbn [fst snd w_s w_trace]. fold ts.
    rewrite applied_app, announced_app, applied_burstTrace, announced_burstTrace.
    cbn [burstStartup applied announced flat_map app].
    split; [reflexivity|]. split; [rewrite length_map, length_seq; reflexivity|].
    split; [reflexivity|]. split; [reflexivity|].
    intros n Hn.
    rewrite (nth_error_map_seq
               (fun i => if Nat.even i then copiesOf (cell (max s)) ts
                         else copiesOf (cell (min s)) ts) _ _ Hn).
    reflexivity.
Qed.

Lemma burst_alternates_max_min_forever_witness :
  exists w1 maxResourceObjects w2 minResourceObjects,
    updateReplicas addr_max
      (mkWorld (command manifests 20 1 "burst" 0) 0 0
         (burstStartup (command manifests 20 1 "burst" 0)))
    = (w1, Ret maxResourceObjects)
    /\ updateReplicas addr_min w1 = (w2, Ret minResourceObjects)
    /\ replicasOf maxResourceObjects = repeat (cell 20) (numDeployments manifests)
    /\ replicasOf minResourceObjects = repeat (cell 1) (numDeployments manifests)
    /\ forall fuel,
         snd (run noErrors fuel (command manifests 20 1 "burst" 0)) = Running
         /\ List.length (applied (w_trace (fst (run noErrors fuel (command manifests 20 1 "burst" 0)))))
            = (2 * fuel)%nat
         /\ announced (w_trace (fst (run noErrors fuel (command manifests 20 1 "burst" 0))))
            = map (burstCount (command manifests 20 1 "burst" 0)) (seq 0 (2 * fuel))
         /\ w_s (fst (run noErrors fuel (command manifests 20 1 "burst" 0))) = w_s w2
         /\ forall n, (n < 2 * fuel)%nat ->
              nth_error (applied (w_trace (fst (run noErrors fuel (command manifests 20 1 "burst" 0))))) n
              = Some (if Nat.even n then maxResourceObjects else minResourceObjects).
Proof.
  apply (burst_alternates_max_min_forever noErrors (command manifests 20 1 "burst" 0));
    reflexivity.
Defined.

(** C2 (as stated) fails: under the burst pattern a manifest whose
    Deployment is not an [appsV1.Deployment] makes the first call of
    [updateReplicas] panic, before the loop; however long the run is
    observed nothing is applied, so there is not even a first applied
    count. *)
Lemma burst_on_foreign_deployment_applies_nothing :
  (forall fuel,
     snd (run noErrors fuel (command legacyManifests 20 1 "burst" 0)) = Panicked
     /\ applied (w_trace (fst (run noErrors fuel
                                 (command legacyManifests 20 1 "burst" 0)))) = [])
  /\ ~ (exists fuel rs,
          nth_error
            (applied (w_trace (fst (run noErrors fuel
                                      (command legacyManifests 20 1 "burst" 0)))))
            0
          = Some rs).
Proof.
  assert (H : forall fuel,
     snd (run noErrors fuel (command legacyManifests 20 1 "burst" 0)) = Panicked
     /\ applied (w_trace (fst (run noErrors fuel
                                 (command legacyManifests 20 1 "burst" 0)))) = []).
  { intros fuel.
    rewrite (run_burst_untyped noErrors fuel (command legacyManifests 20 1 "burst" 0)
               eq_refl eq_refl).
    split; reflexivity. }
  split; [exact H|].
  intros [fuel [rs Hn]]. destruct (H fuel) as [_ Ha]. rewrite Ha in Hn.
  discriminate Hn.
Qed.

(** The sequence 20, 1, 20, 1, ... of the specification, on six applies. *)
Example burst_20_1 :
  map replicasOf
    (applied (w_trace (fst (run noErrors 3 (command manifests 20 1 "burst" 0)))))
  = [[cell 20]; [cell 1]; [cell 20]; [cell 1]; [cell 20]; [cell 1]].
Proof. reflexivity. Qed.

Lemma effectiveFactor_derived (s : scale) :
  scalingFactor s = 0 \/ max s <= scalingFactor s ->
  effectiveFactor s = Z.quot (max s) 10.
Proof.
  intros H. unfold effectiveFactor, int32_quo.
  destruct (Z.leb_spec (max s) (scalingFactor s));
    destruct (Z.eqb_spec (scalingFactor s) 0); simpl; try reflexivity; lia.
Qed.

Lemma effectiveFactor_supplied (s : scale) :
  scalingFactor s <> 0 -> scalingFactor s < max s ->
  effectiveFactor s = scalingFactor s.
Proof.
  intros H0 H1. unfold effectiveFactor.
  destruct (Z.leb_spec (max s) (scalingFactor s));
    destruct (Z.eqb_spec (scalingFactor s) 0); simpl; try reflexivity; lia.
Qed.

(** The struct of a step run holds the factor of lines 100-114, however
    long the run and whether or not it panics. *)
Lemma run_step_factor (env : Env) (fuel : nat) (s : scale) :
  patternName s = "step"%string ->
  scalingFactor (w_s (fst (run env fuel s))) = effectiveFactor s.
Proof.
  intros Hs. destruct fuel as [|fuel].
  - rewrite (run_step_zero env s Hs). reflexivity.
  - destruct (wellTyped (resources (k8sClient s))) eqn:Ht.
    + rewrite (run_step_typed env (S fuel) s Hs Ht). reflexivity.
    + rewrite (run_step_untyped env fuel s Hs Ht). reflexivity.
Qed.

(** C3.  Under the step pattern the factor is settled before the first
    apply: when the loop is entered nothing has been applied yet and the
    struct holds [max / 10] (the quotient truncated) if the factor supplied
    is zero or at least [max], and the factor supplied otherwise.  The
    struct holds that same factor however long the run. *)
Theorem step_factor_is_settled_before_the_first_apply
    (env : Env) (fuel : nat) (s : scale) :
  patternName s = "step"%string ->
  applied (w_trace (fst (run env 0 s))) = []
  /\ snd (run env 0 s) = Running
  /\ (scalingFactor s = 0 \/ max s <= scalingFactor s ->
        scalingFactor (w_s (fst (run env 0 s))) = Z.quot (max s) 10
        /\ scalingFactor (w_s (fst (run env fuel s))) = Z.quot (max s) 10)
  /\ (scalingFactor s <> 0 -> scalingFactor s < max s ->
        scalingFactor (w_s (fst (run env 0 s))) = scalingFactor s
        /\ scalingFactor (w_s (fst (run env fuel s))) = scalingFactor s).
Proof.
  intros Hs. split; [|split; [|split]].
  - rewrite (run_step_zero env s Hs). apply applied_stepStartup.
  - rewrite (run_step_zero env s Hs). reflexivity.
  - intros H. rewrite !(run_step_factor env _ s Hs).
    split; apply effectiveFactor_derived; exact H.
  - intros H0 H1. rewrite !(run_step_factor env _ s Hs).
    split; apply effectiveFactor_supplied; assumption.
Qed.

Lemma step_factor_is_settled_before_the_first_apply_witness :
  applied (w_trace (fst (run noErrors 0 (command manifests 100 0 "step" 250)))) = []
  /\ snd (run noErrors 0 (command manifests 100 0 "step" 250)) = Running
  /\ scalingFactor (w_s (fst (run noErrors 0 (command manifests 100 0 "step" 250)))) = 10
  /\ scalingFactor (w_s (fst (run noErrors 4 (command manifests 100 0 "step" 250)))) = 10
  /\ scalingFactor (w_s (fst (run noErrors 4 (command manifests 100 0 "step" 7)))) = 7.
Proof.
  pose proof (step_factor_is_settled_before_the_first_apply noErrors 4
                (command manifests 100 0 "step" 250) eq_refl) as [H1 [H2 [H3 _]]].
  pose proof (step_factor_is_settled_before_the_first_apply noErrors 4
                (command manifests 100 0 "step" 7) eq_refl) as [_ [_ [_ H4]]].
  split; [exact H1|]. split; [exact H2|].
  destruct H3 as [H3a H3b]; [right; simpl; lia|].
  destruct H4 as [_ H4b]; [simpl; lia | simpl; lia |].
  split; [exact H3a|]. split; [exact H3b | exact H4b].
Defined.

(** ** The step pattern *)

Lemma Forall_repeat {A} (P : A -> Prop) (x : A) (n : nat) :
  P x -> Forall P (repeat x n).
Proof.
  intros H. apply Forall_forall. intros y Hy.
  apply repeat_spec in Hy. subst y. exact H.
Qed.

Lemma copies_within (lo hi v : Z) (ts : list Resource) :
  wellTyped ts = true -> lo <= v <= hi ->
  Forall (cellWithin lo hi) (replicasOf (copiesOf (cell v) ts)).
Proof.
  intros Ht Hv. rewrite (replicasOf_copiesOf _ _ Ht).
  apply Forall_repeat. exact Hv.
Qed.

Lemma map_ext_seq {A} (f g : nat -> A) (a m : nat) :
  (forall k, (a <= k < a + m)%nat -> f k = g k) ->
  map f (seq a m) = map g (seq a m).
Proof.
  intros H. apply map_ext_in. intros k Hk. apply in_seq in Hk. apply H. exact Hk.
Qed.

Lemma map_const_seq {A} (x : A) (a m : nat) :
  map (fun _ => x) (seq a m) = repeat x m.
Proof.
  revert a. induction m as [|m IH]; intros a; simpl; [reflexivity|].
  rewrite IH. reflexivity.
Qed.

(** The announcements and the applies of a step run on a target set that
    passes the type assertion: the counts of [stepCount], one per iteration. *)
Lemma run_step_counts (env : Env) (fuel : nat) (s : scale) :
  patternName s = "step"%string ->
  wellTyped (resources (k8sClient s)) = true ->
  snd (run env fuel s) = Running
  /\ announced (w_trace (fst (run env fuel s))) = map (stepCount s) (seq 0 fuel)
  /\ applied (w_trace (fst (run env fuel s)))
     = map (fun k => copiesOf (cell (stepCount s k)) (resources (k8sClient s)))
         (seq 0 fuel).
Proof.
  intros Hs Ht. rewrite (run_step_typed env fuel s Hs Ht).
  cbn [fst snd w_trace].
  rewrite announced_app, applied_app, announced_stepStartup, applied_stepStartup,
    announced_stepTrace, applied_stepTrace.
  repeat split.
Qed.

(** C1 (as amended).  Let [0 <= min <= max].  Under the burst pattern, and
    under the step pattern when the factor the loop runs with is not negative
    and [max] plus that factor fits in an int32, every replica field of
    every resource set handed to apply is a private cell whose value lies in
    [min, max], on every cycle; so does every count announced. *)
Theorem applied_counts_stay_within_min_max (env : Env) (fuel : nat) (s : scale) :
  0 <= min s -> min s <= max s ->
  (patternName s = "step"%string ->
     0 <= scalingFactor (w_s (fst (run env 0 s)))
     /\ max s + scalingFactor (w_s (fst (run env 0 s))) <= INT32_MAX) ->
  Forall (fun rs => Forall (cellWithin (min s) (max s)) (replicasOf rs))
    (applied (w_trace (fst (run env fuel s))))
  /\ Forall (fun v => min s <= v <= max s)
       (announced (w_trace (fst (run env fuel s)))).
Proof.
  intros H0 Hle Hf.
  destruct (pattern_cases s) as [Hb | [Hs | [Hb Hs]]].
  - destruct (wellTyped (resources (k8sClient s))) eqn:Ht.
    + rewrite (run_burst_typed env fuel s Hb Ht). cbn [fst w_trace].
      rewrite applied_app, announced_app, applied_burstTrace, announced_burstTrace.
      cbn [burstStartup applied announced flat_map app].
      split; apply Forall_forall; intros x Hx; apply in_map_iff in Hx;
        destruct Hx as [i [Hx _]]; subst x; destruct (Nat.even i);
        try (apply copies_within; [exact Ht | lia]); lia.
    + rewrite (run_burst_untyped env fuel s Hb Ht). cbn [fst w_trace].
      split; constructor.
  - specialize (Hf Hs). rewrite (run_step_factor env 0 s Hs) in Hf.
    destruct Hf as [Hf0 Hf1].
    assert (Hlo : INT32_MIN <= min s) by (unfold INT32_MIN; lia).
    destruct (wellTyped (resources (k8sClient s))) eqn:Ht.
    + destruct (run_step_counts env fuel s Hs Ht) as [_ [Ha Hp]].
      rewrite Ha, Hp.
      split; apply Forall_forall; intros x Hx; apply in_map_iff in Hx;
        destruct Hx as [k [Hx _]]; subst x;
        pose proof (iter_nextCount_within (max s) (effectiveFactor s) (min s) k
                      Hle Hlo Hf0 Hf1) as Hw;
        [apply copies_within; [exact Ht | exact Hw] | exact Hw].
    + destruct fuel as [|fuel].
      * rewrite (run_step_zero env s Hs). cbn [fst w_trace stepEntry].
        rewrite applied_stepStartup, announced_stepStartup. split; constructor.
      * rewrite (run_step_untyped env fuel s Hs Ht). cbn [fst w_trace].
        rewrite applied_app, announced_app, applied_stepStartup, announced_stepStartup.
        cbn [applied announced flat_map app].
        split; [constructor|]. constructor; [lia | constructor].
  - rewrite (run_invalid env fuel s Hb Hs). cbn [fst w_trace].
    split; constructor.
Qed.

Lemma applied_counts_stay_within_min_max_witness :
  Forall (fun rs => Forall (cellWithin 0 100) (replicasOf rs))
    (applied (w_trace (fst (run noErrors 13 (command manifests 100 0 "step" 0)))))
  /\ Forall (fun v => 0 <= v <= 100)
       (announced (w_trace (fst (run noErrors 13 (command manifests 100 0 "step" 0))))).
Proof.
  apply (applied_counts_stay_within_min_max noErrors 13
           (command manifests 100 0 "step" 0)).
  - simpl. lia.
  - simpl. lia.
  - intros _. vm_compute. split; discriminate.
Defined.

(** C1 (as stated) fails: with [min = 0], [max = 10] and the factor -1 the
    step loop sends 0 and then -1, which is below [min]. *)
Lemma negative_factor_leaves_the_interval :
  0 <= min (command manifests 10 0 "step" (-1))
  /\ min (command manifests 10 0 "step" (-1)) <= max (command manifests 10 0 "step" (-1))
  /\ map replicasOf
       (applied (w_trace (fst (run noErrors 2 (command manifests 10 0 "step" (-1))))))
     = [[cell 0]; [cell (-1)]]
  /\ ~ Forall (fun rs => Forall (cellWithin 0 10) (replicasOf rs))
         (applied (w_trace (fst (run noErrors 2 (command manifests 10 0 "step" (-1)))))).
Proof.
  split; [simpl; lia|]. split; [simpl; lia|]. split; [reflexivity|].
  intros H. vm_compute in H.
  inversion H as [|x l Hx Hl]; subst.
  inversion Hl as [|y l' Hy Hl']; subst.
  inversion Hy as [|p q Hp Hq]; subst.
  destruct Hp as [Hp _]. apply Hp. reflexivity.
Qed.

(** C4 (as amended).  Under the step pattern, on a target set that passes
    the type assertion, let [f] be the factor the loop is entered with and
    let [min <= max].  As long as the arithmetic stays within int32, that is
    [max + f <= 2^31 - 1] and [-2^31 <= min + n * f], the n-th count
    announced and applied is [min (min + n * f) max]: the loop starts at
    [min] and each cycle adds [f], clamping at [max]. *)
Theorem step_count_is_min_plus_n_times_factor_clamped
    (env : Env) (fuel n : nat) (s : scale) :
  patternName s = "step"%string ->
  wellTyped (resources (k8sClient s)) = true ->
  min s <= max s ->
  INT32_MIN <= min s ->
  max s + scalingFactor (w_s (fst (run env 0 s))) <= INT32_MAX ->
  INT32_MIN <= min s + Z.of_nat n * scalingFactor (w_s (fst (run env 0 s))) ->
  (n < fuel)%nat ->
  snd (run env fuel s) = Running
  /\ nth_error (announced (w_trace (fst (run env fuel s)))) n
     = Some (Z.min (min s + Z.of_nat n * scalingFactor (w_s (fst (run env 0 s)))) (max s))
  /\ nth_error (applied (w_trace (fst (run env fuel s)))) n
     = Some (copiesOf
               (cell (Z.min (min s + Z.of_nat n * scalingFactor (w_s (fst (run env 0 s))))
                        (max s)))
               (resources (k8sClient s)))
  /\ replicasOf
       (copiesOf
          (cell (Z.min (min s + Z.of_nat n * scalingFactor (w_s (fst (run env 0 s))))
                   (max s)))
          (resources (k8sClient s)))
     = repeat
         (cell (Z.min (min s + Z.of_nat n * scalingFactor (w_s (fst (run env 0 s))))
                  (max s)))
         (numDeployments (resources (k8sClient s))).
Proof.
  intros Hs Ht Hle Hlo Hhi Hn Hlt.
  rewrite (run_step_factor env 0 s Hs) in *.
  destruct (run_step_counts env fuel s Hs Ht) as [Hr [Ha Hp]].
  rewrite Ha, Hp.
  rewrite (nth_error_map_seq (stepCount s) _ _ Hlt).
  rewrite (nth_error_map_seq
             (fun k => copiesOf (cell (stepCount s k)) (resources (k8sClient s)))
             _ _ Hlt).
  unfold stepCount.
  rewrite (iter_nextCount_formula (max s) (effectiveFactor s) (min s) n
             Hle Hlo Hhi Hn n (le_n n)).
  split; [exact Hr|]. split; [reflexivity|]. split; [reflexivity|].
  apply replicasOf_copiesOf. exact Ht.
Qed.

Lemma step_count_is_min_plus_n_times_factor_clamped_witness :
  snd (run noErrors 13 (command manifests 100 0 "step" 0)) = Running
  /\ nth_error (announced (w_trace (fst (run noErrors 13 (command manifests 100 0 "step" 0))))) 11
     = Some (Z.min (0 + 11 * 10) 100)
  /\ nth_error (applied (w_trace (fst (run noErrors 13 (command manifests 100 0 "step" 0))))) 11
     = Some (copiesOf (cell (Z.min (0 + 11 * 10) 100)) manifests)
  /\ replicasOf (copiesOf (cell (Z.min (0 + 11 * 10) 100)) manifests)
     = repeat (cell (Z.min (0 + 11 * 10) 100)) (numDeployments manifests).
Proof.
  apply (step_count_is_min_plus_n_times_factor_clamped noErrors 13 11
           (command manifests 100 0 "step" 0)).
  - reflexivity.
  - reflexivity.
  - simpl. lia.
  - vm_compute. discriminate.
  - vm_compute. discriminate.
  - vm_compute. discriminate.
  - lia.
Defined.

(** The sequence 0, 10, ..., 100, 100, 100 of the specification. *)
Example step_100_0 :
  map replicasOf
    (applied (w_trace (fst (run noErrors 13 (command manifests 100 0 "step" 0)))))
  = [[cell 0]; [cell 10]; [cell 20]; [cell 30]; [cell 40]; [cell 50]; [cell 60];
     [cell 70]; [cell 80]; [cell 90]; [cell 100]; [cell 100]; [cell 100]].
Proof. reflexivity. Qed.

(** C4 (as stated) fails: with [min = 0], [max = 2147483647] and the factor
    2147483646 the third count is 2 * 2147483646 wrapped around, -4, and not
    [min (0 + 2 * 2147483646) 2147483647 = 2147483647]. *)
Lemma step_count_wraps_around :
  scalingFactor
    (w_s (fst (run noErrors 3 (command manifests 2147483647 0 "step" 2147483646))))
  = 2147483646
  /\ map replicasOf
       (applied (w_trace (fst (run noErrors 3
                                 (command manifests 2147483647 0 "step" 2147483646)))))
     = [[cell 0]; [cell 2147483646]; [cell (-4)]]
  /\ nth_error
       (announced (w_trace (fst (run noErrors 3
                                   (command manifests 2147483647 0 "step" 2147483646)))))
       2
     <> Some (Z.min (0 + 2 * 2147483646) 2147483647).
Proof.
  split; [reflexivity|]. split; [vm_compute; reflexivity|].
  vm_compute. discriminate.
Qed.

(** A step run whose factor is zero keeps announcing and applying [min]. *)
Lemma run_step_constant (env : Env) (fuel : nat) (s : scale) :
  patternName s = "step"%string ->
  wellTyped (resources (k8sClient s)) = true ->
  effectiveFactor s = 0 ->
  INT32_MIN <= min s -> min s <= max s -> max s <= INT32_MAX ->
  announced (w_trace (fst (run env fuel s))) = repeat (min s) fuel
  /\ applied (w_trace (fst (run env fuel s)))
     = repeat (copiesOf (cell (min s)) (resources (k8sClient s))) fuel
  /\ w_numberOfResources (fst (run env fuel s)) = min s.
Proof.
  intros Hs Ht He Hlo Hle Hhi.
  assert (Hc : forall k, stepCount s k = min s).
  { intros k. unfold stepCount. rewrite He.
    apply iter_nextCount_zero; assumption. }
  destruct (run_step_counts env fuel s Hs Ht) as [Hr [Ha Hp]].
  rewrite Ha, Hp. split; [|split].
  - rewrite (map_ext_seq (stepCount s) (fun _ => min s)) by (intros; apply Hc).
    apply map_const_seq.
  - rewrite (map_ext_seq _ (fun _ => copiesOf (cell (min s)) (resources (k8sClient s))))
      by (intros; rewrite Hc; reflexivity).
    apply map_const_seq.
  - rewrite (run_step_typed env fuel s Hs Ht). cbn [fst w_numberOfResources].
    apply Hc.
Qed.




(** C9 (as amended).  Under the step pattern, on a target set that passes
    the type assertion, let [f] be the factor the loop is entered with, let
    [min <= max], [0 < f] and let [max + f] fit in an int32.  Then the
    counts announced and applied are those of a ramp: the first is [min],
    the sequence never decreases, each count is the one before plus [f]
    unless that exceeds [max], in which case it is [max]; [max] is reached,
    and from then on every count is [max]. *)
Theorem step_ramp_rises_to_max_and_holds (env : Env) (s : scale) :
  patternName s = "step"%string ->
  wellTyped (resources (k8sClient s)) = true ->
  INT32_MIN <= min s -> min s <= max s ->
  0 < scalingFactor (w_s (fst (run env 0 s))) ->
  max s + scalingFactor (w_s (fst (run env 0 s))) <= INT32_MAX ->
  (forall fuel,
     snd (run env fuel s) = Running
     /\ announced (w_trace (fst (run env fuel s))) = map (stepCount s) (seq 0 fuel)
     /\ applied (w_trace (fst (run env fuel s)))
        = map (fun k => copiesOf (cell (stepCount s k)) (resources (k8sClient s)))
            (seq 0 fuel))
  /\ stepCount s 0 = min s
  /\ (forall k, stepCount s k <= stepCount s (S k))
  /\ (forall k, stepCount s (S k)
                = Z.min (stepCount s k + scalingFactor (w_s (fst (run env 0 s)))) (max s))
  /\ exists N, stepCount s N = max s
               /\ forall k, (N <= k)%nat -> stepCount s k = max s.
Proof.
  intros Hs Ht Hlo Hle Hf Hhi.
  rewrite (run_step_factor env 0 s Hs) in *.
  assert (Hc : forall k, stepCount s k
                         = Z.min (min s + Z.of_nat k * effectiveFactor s) (max s)).
  { intros k. unfold stepCount.
    apply (iter_nextCount_formula (max s) (effectiveFactor s) (min s) k);
      try assumption; [nia | lia]. }
  split; [intros fuel; exact (run_step_counts env fuel s Hs Ht)|].
  split; [reflexivity|].
  split; [|split].
  - intros k. rewrite !Hc.
    assert (Hk : Z.of_nat (S k) * effectiveFactor s
                 = Z.of_nat k * effectiveFactor s + effectiveFactor s) by lia.
    rewrite Hk. lia.
  - intros k. rewrite !Hc.
    assert (Hk : Z.of_nat (S k) * effectiveFactor s
                 = Z.of_nat k * effectiveFactor s + effectiveFactor s) by lia.
    rewrite Hk. lia.
  - exists (Z.to_nat (max s - min s)).
    assert (Hreach : forall k, (Z.to_nat (max s - min s) <= k)%nat ->
                               stepCount s k = max s).
    { intros k Hk. rewrite Hc.
      assert (max s - min s <= Z.of_nat k * effectiveFactor s) by nia.
      lia. }
    split; [apply Hreach; lia | exact Hreach].
Qed.

Lemma step_ramp_rises_to_max_and_holds_witness :
  (forall fuel,
     snd (run noErrors fuel (command manifests 100 0 "step" 0)) = Running
     /\ announced (w_trace (fst (run noErrors fuel (command manifests 100 0 "step" 0))))
        = map (stepCount (command manifests 100 0 "step" 0)) (seq 0 fuel)
     /\ applied (w_trace (fst (run noErrors fuel (command manifests 100 0 "step" 0))))
        = map (fun k => copiesOf (cell (stepCount (command manifests 100 0 "step" 0) k))
                          manifests)
            (seq 0 fuel))
  /\ stepCount (command manifests 100 0 "step" 0) 0 = 0
  /\ (forall k, stepCount (command manifests 100 0 "step" 0) k
                <= stepCount (command manifests 100 0 "step" 0) (S k))
  /\ (forall k, stepCount (command manifests 100 0 "step" 0) (S k)
                = Z.min (stepCount (command manifests 100 0 "step" 0) k + 10) 100)
  /\ exists N, stepCount (command manifests 100 0 "step" 0) N = 100
               /\ forall k, (N <= k)%nat ->
                            stepCount (command manifests 100 0 "step" 0) k = 100.
Proof.
  apply (step_ramp_rises_to_max_and_holds noErrors (command manifests 100 0 "step" 0)).
  - reflexivity.
  - reflexivity.
  - vm_compute. discriminate.
  - simpl. lia.
  - vm_compute. reflexivity.
  - vm_compute. discriminate.
Defined.

(** C9 (as stated) fails: with [min = 1], [max = 5] and no factor given the
    factor derived is [5 / 10 = 0]; every count is 1 and [max] is never
    reached. *)
Lemma step_with_small_max_never_reaches_max :
  (forall fuel,
     announced (w_trace (fst (run noErrors fuel (command manifests 5 1 "step" 0))))
     = repeat 1 fuel)
  /\ ~ (exists fuel n,
          nth_error
            (announced (w_trace (fst (run noErrors fuel (command manifests 5 1 "step" 0)))))
            n
          = Some (max (command manifests 5 1 "step" 0))).
Proof.
  assert (H : forall fuel,
     announced (w_trace (fst (run noErrors fuel (command manifests 5 1 "step" 0))))
     = repeat 1 fuel).
  { intros fuel.
    assert (Hlo : INT32_MIN <= min (command manifests 5 1 "step" 0))
      by (vm_compute; discriminate).
    assert (Hle : min (command manifests 5 1 "step" 0) <= max (command manifests 5 1 "step" 0))
      by (vm_compute; discriminate).
    assert (Hhi : max (command manifests 5 1 "step" 0) <= INT32_MAX)
      by (vm_compute; discriminate).
    exact (proj1 (run_step_constant noErrors fuel (command manifests 5 1 "step" 0)
                    eq_refl eq_refl eq_refl Hlo Hle Hhi)). }
  split; [exact H|].
  intros [fuel [n Hn]]. rewrite H in Hn.
  apply nth_error_In in Hn. apply repeat_spec in Hn. discriminate Hn.
Qed.

(** * Further properties of the code *)

(** ** updateReplicas: when it panics and what it leaves *)

Lemma forallb_false_exists {A} (f : A -> bool) (l : list A) :
  forallb f l = false <-> exists x, In x l /\ f x = false.
Proof.
  induction l as [|a l IH]; simpl.
  - split; [discriminate | intros [x [[] _]]].
  - destruct (f a) eqn:E; simpl.
    + rewrite IH. split.
      * intros [x [Hx Hf]]. exists x. split; [right; exact Hx | exact Hf].
      * intros [x [[Hx | Hx] Hf]].
        -- subst x. congruence.
        -- exists x. split; assumption.
    + split; [|reflexivity]. intros _. exists a. split; [left; reflexivity | exact E].
Qed.

Lemma wellTypedObject_false (o : Object) :
  wellTypedObject o = false <->
  isDeploymentKind o = true /\ exists k n r, o = OOther k n r.
Proof.
  destruct o as [d|k n r]; simpl.
  - split; [discriminate | intros [_ [k [n [r H]]]]; discriminate H].
  - split.
    + intros H. apply negb_false_iff in H. split; [exact H|].
      exists k, n, r. reflexivity.
    + intros [H _]. apply negb_false_iff. exact H.
Qed.

Lemma wellTyped_false (rs : list Resource) :
  wellTyped rs = false <->
  exists r o, In r rs /\ In o (Objects r) /\ isDeploymentKind o = true
              /\ exists k n rest, o = OOther k n rest.
Proof.
  unfold wellTyped. rewrite forallb_false_exists. split.
  - intros [r [Hr Hf]]. apply forallb_false_exists in Hf.
    destruct Hf as [o [Ho Hw]]. apply wellTypedObject_false in Hw.
    destruct Hw as [Hk He]. exists r, o. repeat split; assumption.
  - intros [r [o [Hr [Ho [Hk He]]]]]. exists r. split; [exact Hr|].
    apply forallb_false_exists. exists o. split; [exact Ho|].
    apply wellTypedObject_false. split; assumption.
Qed.

(** X1.  [updateReplicas] has two outcomes only.  It panics exactly when
    some loaded object has the kind "deployment" (in any letter case) and is
    not an [appsV1.Deployment]; on every other target set it returns. *)
Theorem updateReplicas_panics_exactly_on_foreign_deployments
    (p : int32_ptr) (w : World) :
  (snd (updateReplicas p w) = Panicked <->
     exists r o, In r (resources (k8sClient (w_s w))) /\ In o (Objects r)
                 /\ isDeploymentKind o = true
                 /\ exists k n rest, o = OOther k n rest)
  /\ (snd (updateReplicas p w) = Panicked
      \/ exists res, snd (updateReplicas p w) = Ret res).
Proof.
  rewrite <- wellTyped_false.
  destruct (wellTyped (resources (k8sClient (w_s w)))) eqn:Ht.
  - rewrite (updateReplicas_typed p w Ht). cbn [snd]. split.
    + split; discriminate.
    + right. eexists. reflexivity.
  - rewrite (updateReplicas_untyped_store p w Ht). cbn [snd]. split.
    + split; reflexivity.
    + left. reflexivity.
Qed.

Lemma updateObjects_stops_at (w : World) (p : int32_ptr)
    (objs1 objs2 acc : list Object) (bad : Object) :
  forallb wellTypedObject objs1 = true ->
  wellTypedObject bad = false ->
  updateObjects w p (objs1 ++ bad :: objs2) acc
  = (map (repoint p) objs1 ++ bad :: objs2, None).
Proof.
  intros H1 Hb. apply wellTypedObject_false in Hb.
  destruct Hb as [Hk [k [n [r He]]]]. subst bad.
  revert acc. induction objs1 as [|o objs1 IH]; intros acc.
  - simpl. simpl in Hk. unfold isDeploymentKind in Hk. simpl in Hk.
    unfold isDeploymentKind. simpl. rewrite Hk. reflexivity.
  - simpl in H1. apply andb_true_iff in H1. destruct H1 as [Ho H1].
    cbn [app updateObjects map].
    destruct (isDeploymentKind o) eqn:E.
    + destruct o as [d|k' n' r'].
      * rewrite (IH H1). cbn [repoint]. rewrite E. reflexivity.
      * simpl in Ho. rewrite E in Ho. discriminate Ho.
    + rewrite (IH H1). destruct o as [d|k' n' r']; cbn [repoint]; try rewrite E;
        reflexivity.
Qed.

Lemma updateResources_stops_at (w : World) (p : int32_ptr)
    (before after acc : list Resource) (file : string)
    (objs1 objs2 : list Object) (bad : Object) :
  wellTyped before = true ->
  forallb wellTypedObject objs1 = true ->
  wellTypedObject bad = false ->
  updateResources w p (before ++ mkResource file (objs1 ++ bad :: objs2) :: after) acc
  = (repointAll p before
       ++ mkResource file (map (repoint p) objs1 ++ bad :: objs2) :: after,
     None).
Proof.
  intros Hb H1 Hbad. revert acc.
  induction before as [|r before IH]; intros acc.
  - cbn [app updateResources Objects FileName repointAll map].
    rewrite (updateObjects_stops_at w p objs1 objs2 [] bad H1 Hbad). reflexivity.
  - simpl in Hb. apply andb_true_iff in Hb. destruct Hb as [Hr Hb].
    cbn [app updateResources repointAll map].
    rewrite (updateObjects_typed _ _ _ _ Hr). rewrite (IH Hb). reflexivity.
Qed.

(** X2.  A panic leaves the loaded target set half rewritten: the
    deployments that come before the offending object, in the files before
    it and in its own file, already point to the argument; the offending
    object, the objects after it and the later files are as they were. *)
Theorem updateReplicas_panic_leaves_a_partial_update
    (p : int32_ptr) (w : World) (before after : list Resource) (file : string)
    (objs1 objs2 : list Object) (bad : Object) :
  resources (k8sClient (w_s w))
  = before ++ mkResource file (objs1 ++ bad :: objs2) :: after ->
  wellTyped before = true ->
  forallb wellTypedObject objs1 = true ->
  wellTypedObject bad = false ->
  updateReplicas p w
  = (setResources w
       (repointAll p before
          ++ mkResource file (map (repoint p) objs1 ++ bad :: objs2) :: after),
     Panicked).
Proof.
  intros Hts Hb H1 Hbad. unfold updateReplicas. rewrite Hts.
  rewrite (updateResources_stops_at w p before after [] file objs1 objs2 bad Hb H1 Hbad).
  reflexivity.
Qed.

Lemma updateReplicas_panic_leaves_a_partial_update_witness :
  updateReplicas addr_max
    (initial (command
                (manifests
                   ++ mkResource "mixed.yaml"
                        ([ODeployment (mkDeployment "Deployment" "a" "spec" (cell 3))]
                           ++ OOther "Deployment" "web" "apiVersion: apps/v1beta1"
                           :: [ODeployment (mkDeployment "Deployment" "b" "spec" (cell 4))])
                   :: manifests)
                20 1 "burst" 0))
  = (setResources
       (initial (command
                (manifests
                   ++ mkResource "mixed.yaml"
                        ([ODeployment (mkDeployment "Deployment" "a" "spec" (cell 3))]
                           ++ OOther "Deployment" "web" "apiVersion: apps/v1beta1"
                           :: [ODeployment (mkDeployment "Deployment" "b" "spec" (cell 4))])
                   :: manifests)
                20 1 "burst" 0))
       (repointAll addr_max manifests
          ++ mkResource "mixed.yaml"
               (map (repoint addr_max)
                    [ODeployment (mkDeployment "Deployment" "a" "spec" (cell 3))]
                  ++ OOther "Deployment" "web" "apiVersion: apps/v1beta1"
                  :: [ODeployment (mkDeployment "Deployment" "b" "spec" (cell 4))])
          :: manifests),
     Panicked).
Proof.
  apply updateReplicas_panic_leaves_a_partial_update; reflexivity.
Defined.

(** ** updateReplicas: the shape of what it returns *)

Lemma copiesOfObjects_nil (q : int32_ptr) (objs : list Object) :
  copiesOfObjects q objs = [] <-> existsb isDeploymentKind objs = false.
Proof.
  unfold copiesOfObjects. induction objs as [|o objs IH]; simpl.
  - split; reflexivity.
  - destruct (isDeploymentKind o); simpl.
    + split; discriminate.
    + exact IH.
Qed.

Lemma FileName_copiesOf (q : int32_ptr) (rs : list Resource) :
  map FileName (copiesOf q rs) = map FileName (filter hasDeployment rs).
Proof.
  induction rs as [|r rs IH]; simpl; [reflexivity|].
  rewrite map_app, IH.
  destruct (hasDeployment r) eqn:Ex; unfold hasDeployment in Ex;
    destruct (copiesOfObjects q (Objects r)) eqn:E.
  - apply copiesOfObjects_nil in E. congruence.
  - reflexivity.
  - reflexivity.
  - apply (copiesOfObjects_nil q) in Ex. congruence.
Qed.

Lemma copiesOf_nonempty (q : int32_ptr) (rs : list Resource) :
  Forall (fun r => Objects r <> []) (copiesOf q rs).
Proof.
  induction rs as [|r rs IH]; simpl; [constructor|].
  apply Forall_app. split; [|exact IH].
  destruct (copiesOfObjects q (Objects r)) eqn:E; constructor; [|constructor].
  simpl. discriminate.
Qed.

(** X3.  On a target set that passes the type assertion the call returns
    one resource for each file that holds a deployment, under the file's
    name and in the order of the files; a file without a deployment gives
    nothing, so no resource returned is ever empty and there are never more
    resources than files. *)
Theorem updateReplicas_returns_one_resource_per_file_with_deployments
    (p : int32_ptr) (w : World) :
  wellTyped (resources (k8sClient (w_s w))) = true ->
  exists res,
    snd (updateReplicas p w) = Ret res
    /\ map FileName res
       = map FileName (filter hasDeployment (resources (k8sClient (w_s w))))
    /\ Forall (fun r => Objects r <> []) res
    /\ (List.length res <= List.length (resources (k8sClient (w_s w))))%nat.
Proof.
  intros Ht. rewrite (updateReplicas_typed p w Ht). cbn [snd].
  eexists. split; [reflexivity|]. split; [apply FileName_copiesOf|].
  split; [apply copiesOf_nonempty|].
  rewrite <- (length_map FileName), FileName_copiesOf, length_map.
  apply filter_length_le.
Qed.

Lemma updateReplicas_returns_one_resource_per_file_with_deployments_witness :
  exists res,
    snd (updateReplicas addr_max (initial (command manifests 20 1 "burst" 0))) = Ret res
    /\ map FileName res = map FileName (filter hasDeployment manifests)
    /\ Forall (fun r => Objects r <> []) res
    /\ (List.length res <= List.length manifests)%nat.
Proof.
  apply (updateReplicas_returns_one_resource_per_file_with_deployments addr_max
           (initial (command manifests 20 1 "burst" 0))).
  reflexivity.
Defined.

Lemma no_deployment_objects (objs : list Object) :
  filter isDeploymentKind objs = [] ->
  forallb wellTypedObject objs = true
  /\ (forall p, map (repoint p) objs = objs)
  /\ (forall q, copiesOfObjects q objs = []).
Proof.
  induction objs as [|o objs IH]; simpl; intros H.
  - repeat split.
  - destruct (isDeploymentKind o) eqn:E; [discriminate H|].
    destruct (IH H) as [H1 [H2 H3]].
    assert (Hr : forall p, repoint p o = o).
    { intros p. destruct o as [d|k n r]; simpl; [|reflexivity]. rewrite E. reflexivity. }
    split; [|split].
    + rewrite H1. destruct o; simpl; [reflexivity|]. rewrite E. reflexivity.
    + intros p. rewrite Hr, H2. reflexivity.
    + intros q. unfold copiesOfObjects. simpl. rewrite E. apply H3.
Qed.

Lemma no_deployment_resources (rs : list Resource) :
  numDeployments rs = 0%nat ->
  wellTyped rs = true
  /\ (forall p, repointAll p rs = rs)
  /\ (forall q, copiesOf q rs = []).
Proof.
  unfold numDeployments, allObjects. intros H. apply length_zero_iff_nil in H.
  induction rs as [|r rs IH]; simpl in *.
  - repeat split.
  - rewrite filter_app in H. apply app_eq_nil in H. destruct H as [Hr Hs].
    destruct (IH Hs) as [H1 [H2 H3]].
    destruct (no_deployment_objects (Objects r) Hr) as [G1 [G2 G3]].
    split; [|split].
    + rewrite G1, H1. reflexivity.
    + intros p. rewrite G2, H2. destruct r; reflexivity.
    + intros q. rewrite G3, H3. reflexivity.
Qed.

(** X4.  With no object of kind "deployment" loaded, as with nothing loaded
    at all, the call returns the empty list and writes nothing: the loaded
    resources are exactly what they were. *)
Theorem updateReplicas_without_deployments_returns_nothing
    (p : int32_ptr) (w : World) :
  numDeployments (resources (k8sClient (w_s w))) = 0%nat ->
  snd (updateReplicas p w) = Ret []
  /\ resources (k8sClient (w_s (fst (updateReplicas p w))))
     = resources (k8sClient (w_s w)).
Proof.
  intros H. destruct (no_deployment_resources _ H) as [Ht [Hp Hq]].
  rewrite (updateReplicas_typed p w Ht). cbn [fst snd].
  rewrite Hq. split; [reflexivity|].
  cbn [setResources w_s with_resources k8sClient resources]. apply Hp.
Qed.

Lemma updateReplicas_without_deployments_returns_nothing_witness :
  snd (updateReplicas addr_min
         (initial (command [mkResource "config.yaml" [OOther "ConfigMap" "cfg" "data"];
                            mkResource "empty.yaml" []] 20 1 "burst" 0)))
  = Ret []
  /\ resources (k8sClient (w_s (fst (updateReplicas addr_min
         (initial (command [mkResource "config.yaml" [OOther "ConfigMap" "cfg" "data"];
                            mkResource "empty.yaml" []] 20 1 "burst" 0))))))
     = [mkResource "config.yaml" [OOther "ConfigMap" "cfg" "data"];
        mkResource "empty.yaml" []].
Proof.
  apply (updateReplicas_without_deployments_returns_nothing addr_min
           (initial (command [mkResource "config.yaml" [OOther "ConfigMap" "cfg" "data"];
                              mkResource "empty.yaml" []] 20 1 "burst" 0))).
  reflexivity.
Defined.

(** X5.  With no object of kind "deployment" loaded the scaler still runs
    its loop under either pattern: it never stops, and every one of its
    calls to the cluster carries the empty list. *)
Theorem scale_without_deployments_applies_empty_sets
    (env : Env) (fuel : nat) (s : scale) :
  numDeployments (resources (k8sClient s)) = 0%nat ->
  patternName s = "burst"%string \/ patternName s = "step"%string ->
  snd (run env fuel s) = Running
  /\ Forall (fun rs => rs = []) (applied (w_trace (fst (run env fuel s))))
  /\ (fuel <= List.length (applied (w_trace (fst (run env fuel s)))))%nat.
Proof.
  intros H Hp. destruct (no_deployment_resources _ H) as [Ht [_ Hq]].
  destruct (length_applied_run env fuel s Ht Hp) as [Hr Hl].
  split; [exact Hr|]. split; [|exact Hl].
  destruct Hp as [Hb | Hs].
  - rewrite (run_burst_typed env fuel s Hb Ht). cbn [fst w_trace].
    rewrite applied_app, applied_burstTrace, !Hq.
    cbn [burstStartup applied flat_map app].
    apply Forall_forall. intros x Hx. apply in_map_iff in Hx.
    destruct Hx as [i [Hx _]]. destruct (Nat.even i); congruence.
  - rewrite (run_step_typed env fuel s Hs Ht). cbn [fst w_trace].
    rewrite applied_app, applied_stepStartup, applied_stepTrace. cbn [app].
    apply Forall_forall. intros x Hx. apply in_map_iff in Hx.
    destruct Hx as [i [Hx _]]. rewrite Hq in Hx. congruence.
Qed.

Lemma scale_without_deployments_applies_empty_sets_witness :
  snd (run noErrors 4
         (command [mkResource "config.yaml" [OOther "ConfigMap" "cfg" "data"]]
            20 1 "burst" 0)) = Running
  /\ Forall (fun rs => rs = [])
       (applied (w_trace (fst (run noErrors 4
         (command [mkResource "config.yaml" [OOther "ConfigMap" "cfg" "data"]]
            20 1 "burst" 0)))))
  /\ (4 <= List.length
             (applied (w_trace (fst (run noErrors 4
               (command [mkResource "config.yaml" [OOther "ConfigMap" "cfg" "data"]]
                  20 1 "burst" 0))))))%nat.
Proof.
  apply (scale_without_deployments_applies_empty_sets noErrors 4
           (command [mkResource "config.yaml" [OOther "ConfigMap" "cfg" "data"]]
              20 1 "burst" 0)).
  - reflexivity.
  - left. reflexivity.
Defined.

(** ** updateReplicas: aliasing and composition *)

Lemma allObjects_repointAll (p : int32_ptr) (rs : list Resource) :
  allObjects (repointAll p rs) = map (repoint p) (allObjects rs).
Proof.
  unfold allObjects. induction rs as [|r rs IH]; simpl; [reflexivity|].
  rewrite map_app, IH. reflexivity.
Qed.

Lemma wellTyped_allObjects (rs : list Resource) :
  wellTyped rs = forallb wellTypedObject (allObjects rs).
Proof.
  unfold allObjects. induction rs as [|r rs IH]; simpl; [reflexivity|].
  rewrite forallb_app, IH. reflexivity.
Qed.

Lemma filter_isDeploymentKind_repoint (p : int32_ptr) (objs : list Object) :
  filter isDeploymentKind (map (repoint p) objs)
  = map (repoint p) (filter isDeploymentKind objs).
Proof.
  induction objs as [|o objs IH]; simpl; [reflexivity|].
  rewrite isDeploymentKind_repoint. destruct (isDeploymentKind o); simpl;
    rewrite IH; reflexivity.
Qed.

(** After the call every loaded deployment points to the argument. *)
Lemma scaledReplicas_repointAll (p : int32_ptr) (rs : list Resource) :
  wellTyped rs = true ->
  scaledReplicas (repointAll p rs) = repeat p (numDeployments rs).
Proof.
  intros Ht. unfold scaledReplicas, numDeployments.
  rewrite allObjects_repointAll, filter_isDeploymentKind_repoint.
  rewrite wellTyped_allObjects in Ht.
  exact (replicasOfObjects_copies p (allObjects rs) Ht).
Qed.

Lemma numDeployments_repointAll (p : int32_ptr) (rs : list Resource) :
  numDeployments (repointAll p rs) = numDeployments rs.
Proof.
  unfold numDeployments.
  rewrite allObjects_repointAll, filter_isDeploymentKind_repoint, length_map.
  reflexivity.
Qed.

(** X6.  The call shares the argument with the loaded deployments and not
    with the copies it returns.  On a target set that passes the type
    assertion, with the argument pointing to [count]: afterwards every loaded
    deployment holds the argument pointer itself, so it follows any later
    write to that variable; every copy returned holds a cell of its own, so
    it reads [count] in every later state of the process. *)
Theorem updateReplicas_copies_are_private_and_originals_are_aliased
    (p : int32_ptr) (w : World) (count : Z) :
  wellTyped (resources (k8sClient (w_s w))) = true ->
  load w p = Some count ->
  exists w' res,
    updateReplicas p w = (w', Ret res)
    /\ scaledReplicas (resources (k8sClient (w_s w')))
       = repeat p (numDeployments (resources (k8sClient (w_s w))))
    /\ forall later : World,
         map (load later) (replicasOf res)
         = repeat (Some count) (numDeployments (resources (k8sClient (w_s w)))).
Proof.
  intros Ht Hl. rewrite (updateReplicas_typed p w Ht).
  eexists. eexists. split; [reflexivity|]. split.
  - cbn [setResources w_s with_resources k8sClient resources].
    apply scaledReplicas_repointAll. exact Ht.
  - intros later. unfold copyPtr. rewrite Hl.
    rewrite (replicasOf_copiesOf _ _ Ht), map_repeat. reflexivity.
Qed.

Lemma updateReplicas_copies_are_private_and_originals_are_aliased_witness :
  exists w' res,
    updateReplicas addr_max (initial (command manifests 20 1 "burst" 0)) = (w', Ret res)
    /\ scaledReplicas (resources (k8sClient (w_s w')))
       = repeat addr_max (numDeployments manifests)
    /\ forall later : World,
         map (load later) (replicasOf res) = repeat (Some 20) (numDeployments manifests).
Proof.
  apply (updateReplicas_copies_are_private_and_originals_are_aliased addr_max
           (initial (command manifests 20 1 "burst" 0)) 20); reflexivity.
Defined.

Lemma updateObjects_after (w w' : World) (p q : int32_ptr)
    (objs acc acc' : list Object) :
  updateObjects w q (fst (updateObjects w' p objs acc')) acc
  = updateObjects w q objs acc.
Proof.
  revert acc acc'. induction objs as [|o objs IH]; intros acc acc'; [reflexivity|].
  cbn [updateObjects].
  destruct (isDeploymentKind o) eqn:E.
  - destruct o as [d|k n r].
    + specialize (IH (acc ++ [ODeployment (DeepCopy w (setSpecReplicas d q))])
                     (acc' ++ [ODeployment (DeepCopy w' (setSpecReplicas d p))])).
      destruct (updateObjects w' p objs
                  (acc' ++ [ODeployment (DeepCopy w' (setSpecReplicas d p))]))
        as [more' r'].
      cbn [fst] in *. cbn [updateObjects].
      assert (Ek : isDeploymentKind (ODeployment (setSpecReplicas d p)) = true)
        by exact E.
      rewrite Ek.
      change (setSpecReplicas (setSpecReplicas d p) q) with (setSpecReplicas d q).
      rewrite IH. reflexivity.
    + cbn [fst updateObjects]. rewrite E. reflexivity.
  - specialize (IH acc acc').
    destruct (updateObjects w' p objs acc') as [more' r'].
    cbn [fst] in *. cbn [updateObjects]. rewrite E, IH. reflexivity.
Qed.

Lemma updateResources_after (w w' : World) (p q : int32_ptr)
    (rs acc acc' : list Resource) :
  updateResources w q (fst (updateResources w' p rs acc')) acc
  = updateResources w q rs acc.
Proof.
  revert acc acc'. induction rs as [|r rs IH]; intros acc acc'; [reflexivity|].
  cbn [updateResources].
  pose proof (updateObjects_after w w' p q (Objects r) [] []) as Ho.
  destruct (updateObjects w' p (Objects r) []) as [objs' [res|]] eqn:Ep;
    cbn [fst] in Ho.
  - match goal with
    | |- context [updateResources w' p rs ?a] =>
        pose proof (fun acc0 => IH acc0 a) as IH';
        destruct (updateResources w' p rs a) as [more' r']
    end.
    cbn [fst] in *. cbn [updateResources FileName Objects]. rewrite Ho.
    destruct (updateObjects w q (Objects r) []) as [objs2 [res2|]] eqn:E2.
    + rewrite IH'. reflexivity.
    + exfalso.
      destruct (forallb wellTypedObject (Objects r)) eqn:Hr.
      * rewrite (updateObjects_typed _ _ _ _ Hr) in E2. discriminate E2.
      * pose proof (updateObjects_untyped w' p (Objects r) [] Hr) as Hn.
        rewrite Ep in Hn. discriminate Hn.
  - cbn [fst updateResources FileName Objects]. rewrite Ho.
    destruct (updateObjects w q (Objects r) []) as [objs2 [res2|]]; reflexivity.
Qed.

(** X7.  Only the last call counts.  Whatever the first argument and
    whether or not the calls panic, calling [updateReplicas] a second time
    gives the result, and leaves the loaded resources in the state, that this
    second call alone would have given: nothing of an earlier call is kept. *)
Theorem updateReplicas_last_call_wins (p q : int32_ptr) (w : World) :
  updateReplicas q (fst (updateReplicas p w)) = updateReplicas q w.
Proof.
  unfold updateReplicas at 1 3.
  assert (Hw : fst (updateReplicas p w)
               = mkWorld (with_resources (w_s w)
                            (fst (updateResources w p (resources (k8sClient (w_s w))) [])))
                   (w_numberOfResources w) (w_calls w) (w_trace w)).
  { unfold updateReplicas.
    destruct (updateResources w p (resources (k8sClient (w_s w))) []) as [rs' [r|]];
      reflexivity. }
  rewrite Hw.
  cbn [w_s w_numberOfResources w_calls w_trace with_resources k8sClient resources].
  rewrite (updateResources_load_only _ w q) by (destruct q; reflexivity).
  rewrite updateResources_after.
  destruct (updateResources w q (resources (k8sClient (w_s w))) []) as [rs2 [r2|]];
    reflexivity.
Qed.

(** The burst branch relies on it: the loaded deployments, rewritten for
    [max] and then for [min], give the same min set as a single call. *)
Example updateReplicas_twice_on_manifests :
  updateReplicas addr_min
    (fst (updateReplicas addr_max (initial (command manifests 20 1 "burst" 0))))
  = (setResources (initial (command manifests 20 1 "burst" 0))
       (repointAll addr_min manifests),
     Ret (copiesOf (cell 1) manifests)).
Proof. reflexivity. Qed.

(** ** scale: how a run can end *)

(** X8.  [scale] never returns: whatever the struct, the environment and
    the length of the observation, the run is still in its loop, has exited
    with code 2, or has panicked.  Once the loop is entered it has panicked
    exactly when the pattern is "burst" or "step" and some loaded object of
    kind "deployment" is not an [appsV1.Deployment]. *)
Theorem scale_never_returns (env : Env) (fuel : nat) (s : scale) :
  (snd (run env fuel s) = Running
   \/ snd (run env fuel s) = Exited 2
   \/ snd (run env fuel s) = Panicked)
  /\ (snd (run env (S fuel) s) = Panicked <->
      (patternName s = "burst"%string \/ patternName s = "step"%string)
      /\ wellTyped (resources (k8sClient s)) = false).
Proof.
  split.
  - destruct (pattern_cases s) as [Hb | [Hs | [Hb Hs]]].
    + destruct (wellTyped (resources (k8sClient s))) eqn:Ht.
      * rewrite (run_burst_typed env fuel s Hb Ht). left. reflexivity.
      * rewrite (run_burst_untyped env fuel s Hb Ht). right; right. reflexivity.
    + destruct fuel as [|fuel].
      * rewrite (run_step_zero env s Hs). left. reflexivity.
      * destruct (wellTyped (resources (k8sClient s))) eqn:Ht.
        -- rewrite (run_step_typed env (S fuel) s Hs Ht). left. reflexivity.
        -- rewrite (run_step_untyped env fuel s Hs Ht). right; right. reflexivity.
    + rewrite (run_invalid env fuel s Hb Hs). right; left. reflexivity.
  - destruct (pattern_cases s) as [Hb | [Hs | [Hb Hs]]].
    + destruct (wellTyped (resources (k8sClient s))) eqn:Ht.
      * rewrite (run_burst_typed env (S fuel) s Hb Ht). cbn [snd].
        split; [discriminate | intros [_ H]; discriminate H].
      * rewrite (run_burst_untyped env (S fuel) s Hb Ht). cbn [snd].
        split; [intros _; split; [left; exact Hb | reflexivity] | reflexivity].
    + destruct (wellTyped (resources (k8sClient s))) eqn:Ht.
      * rewrite (run_step_typed env (S fuel) s Hs Ht). cbn [snd].
        split; [discriminate | intros [_ H]; discriminate H].
      * rewrite (run_step_untyped env fuel s Hs Ht). cbn [snd].
        split; [intros _; split; [right; exact Hs | reflexivity] | reflexivity].
    + rewrite (run_invalid env (S fuel) s Hb Hs). cbn [snd].
      split; [discriminate | intros [[H | H] _]; contradiction].
Qed.

(** X9.  A target set that fails the type assertion never reaches the
    cluster: whatever the pattern and however long the run, not a single
    call of [ResourceApply] is made, not even for the deployments that come
    before the offending object, and the run is over as soon as the loop is
    entered. *)
Theorem untyped_target_set_is_never_applied (env : Env) (fuel : nat) (s : scale) :
  wellTyped (resources (k8sClient s)) = false ->
  applied (w_trace (fst (run env fuel s))) = []
  /\ w_calls (fst (run env fuel s)) = 0%nat
  /\ snd (run env (S fuel) s) <> Running.
Proof.
  intros Ht.
  destruct (pattern_cases s) as [Hb | [Hs | [Hb Hs]]].
  - rewrite !(run_burst_untyped env _ s Hb Ht). cbn [fst snd w_trace w_calls].
    repeat split. discriminate.
  - rewrite (run_step_untyped env fuel s Hs Ht). cbn [snd].
    destruct fuel as [|fuel].
    + rewrite (run_step_zero env s Hs). cbn [fst stepEntry w_trace w_calls].
      rewrite applied_stepStartup. repeat split. discriminate.
    + rewrite (run_step_untyped env fuel s Hs Ht). cbn [fst w_trace w_calls].
      rewrite applied_app, applied_stepStartup. repeat split. discriminate.
  - rewrite !(run_invalid env _ s Hb Hs). cbn [fst snd w_trace w_calls].
    repeat split. discriminate.
Qed.

Lemma untyped_target_set_is_never_applied_witness :
  applied (w_trace (fst (run noErrors 5 (command legacyManifests 20 1 "step" 0)))) = []
  /\ w_calls (fst (run noErrors 5 (command legacyManifests 20 1 "step" 0))) = 0%nat
  /\ snd (run noErrors 6 (command legacyManifests 20 1 "step" 0)) <> Running.
Proof.
  apply (untyped_target_set_is_never_applied noErrors 5
           (command legacyManifests 20 1 "step" 0)).
  reflexivity.
Defined.

(** ** scale: pacing, announcements, what stays fixed *)

Lemma pacing_app (a b : list Event) : pacing (a ++ b) = pacing a ++ pacing b.
Proof. apply filter_app. Qed.

Lemma pacing_reportOf (env : Env) (c : nat) : pacing (reportOf env c) = [].
Proof. unfold reportOf. destruct (env c); reflexivity. Qed.

Lemma pacing_factorLogs (s : scale) : pacing (factorLogs s) = [].
Proof.
  unfold factorLogs.
  destruct (max s <=? scalingFactor s); destruct (scalingFactor s =? 0); reflexivity.
Qed.

Lemma pacing_stepStartup (s : scale) : pacing (stepStartup s) = [].
Proof.
  unfold stepStartup. rewrite !pacing_app, pacing_factorLogs. reflexivity.
Qed.

Lemma pacing_burstTrace (env : Env) (mx mn itv : Z) (mxRO mnRO : list Resource)
    (c fuel : nat) :
  pacing (burstTrace env mx mn itv mxRO mnRO c fuel)
  = flat_map (fun rs => [EvApply rs; EvSleep itv])
      (applied (burstTrace env mx mn itv mxRO mnRO c fuel)).
Proof.
  revert c. induction fuel as [|k IH]; intros c; [reflexivity|].
  cbn [burstTrace].
  rewrite !pacing_app, !applied_app, !flat_map_app, !pacing_reportOf,
    !applied_reportOf, IH.
  reflexivity.
Qed.

Lemma pacing_stepTrace (env : Env) (itv mx f : Z) (ts : list Resource)
    (n : Z) (c fuel : nat) :
  pacing (stepTrace env itv mx f ts n c fuel)
  = flat_map (fun rs => [EvApply rs; EvSleep itv])
      (applied (stepTrace env itv mx f ts n c fuel)).
Proof.
  revert n c. induction fuel as [|k IH]; intros n c; [reflexivity|].
  cbn [stepTrace].
  rewrite !pacing_app, !applied_app, !flat_map_app, !pacing_reportOf,
    !applied_reportOf, IH.
  reflexivity.
Qed.

Lemma sleeps_pacing (tr : list Event) : sleeps tr = sleeps (pacing tr).
Proof.
  unfold sleeps, pacing. induction tr as [|e tr IH]; [reflexivity|].
  destruct e; simpl; rewrite IH; reflexivity.
Qed.

(** X10.  The cadence is fixed.  In every run, the calls to the cluster and
    the sleeps strictly alternate, starting with a call: each apply, failed
    or not, is followed by exactly one sleep of [interval] before the next
    one, nothing else ever sleeps, and the process has made as many calls as
    the trace shows. *)
Theorem every_apply_is_followed_by_one_sleep_of_interval
    (env : Env) (fuel : nat) (s : scale) :
  pacing (w_trace (fst (run env fuel s)))
  = flat_map (fun rs => [EvApply rs; EvSleep (interval s)])
      (applied (w_trace (fst (run env fuel s))))
  /\ sleeps (w_trace (fst (run env fuel s)))
     = repeat (interval s) (List.length (applied (w_trace (fst (run env fuel s)))))
  /\ w_calls (fst (run env fuel s))
     = List.length (applied (w_trace (fst (run env fuel s)))).
Proof.
  assert (Hsl : forall tr itv,
            pacing tr = flat_map (fun rs => [EvApply rs; EvSleep itv]) (applied tr) ->
            sleeps tr = repeat itv (List.length (applied tr))).
  { intros tr itv H.
    rewrite (sleeps_pacing tr), H. generalize (applied tr). intros l.
    induction l as [|x l IH]; simpl; [reflexivity | rewrite IH; reflexivity]. }
  assert (Hmain :
    pacing (w_trace (fst (run env fuel s)))
    = flat_map (fun rs => [EvApply rs; EvSleep (interval s)])
        (applied (w_trace (fst (run env fuel s))))
    /\ w_calls (fst (run env fuel s))
       = List.length (applied (w_trace (fst (run env fuel s))))).
  { destruct (pattern_cases s) as [Hb | [Hs | [Hb Hs]]].
    - destruct (wellTyped (resources (k8sClient s))) eqn:Ht.
      + rewrite (run_burst_typed env fuel s Hb Ht). cbn [fst w_trace w_calls].
        rewrite pacing_app, applied_app, pacing_burstTrace.
        cbn [burstStartup pacing filter isApplyOrSleep applied flat_map app].
        split; [reflexivity|].
        rewrite applied_burstTrace, length_map, length_seq. reflexivity.
      + rewrite (run_burst_untyped env fuel s Hb Ht). split; reflexivity.
    - destruct fuel as [|fuel].
      + rewrite (run_step_zero env s Hs). cbn [fst stepEntry w_trace w_calls].
        rewrite pacing_stepStartup, applied_stepStartup. split; reflexivity.
      + destruct (wellTyped (resources (k8sClient s))) eqn:Ht.
        * rewrite (run_step_typed env (S fuel) s Hs Ht). cbn [fst w_trace w_calls].
          rewrite pacing_app, applied_app, pacing_stepStartup, applied_stepStartup,
            pacing_stepTrace.
          cbn [app]. split; [reflexivity|].
          rewrite applied_stepTrace, length_map, length_seq. reflexivity.
        * rewrite (run_step_untyped env fuel s Hs Ht). cbn [fst w_trace w_calls].
          rewrite pacing_app, applied_app, pacing_stepStartup, applied_stepStartup.
          split; reflexivity.
    - rewrite (run_invalid env fuel s Hb Hs). split; reflexivity. }
  destruct Hmain as [H1 H2].
  split; [exact H1|]. split; [apply Hsl; exact H1 | exact H2].
Qed.

(** X11.  What is announced is what is sent.  On a target set that passes
    the type assertion, in every run, each line "Scaling Deployment to n" is
    matched, in order, by one apply in which every deployment holds [n]. *)
Theorem every_announcement_is_matched_by_its_apply
    (env : Env) (fuel : nat) (s : scale) :
  wellTyped (resources (k8sClient s)) = true ->
  map replicasOf (applied (w_trace (fst (run env fuel s))))
  = map (fun n => repeat (cell n) (numDeployments (resources (k8sClient s))))
      (announced (w_trace (fst (run env fuel s)))).
Proof.
  intros Ht.
  destruct (pattern_cases s) as [Hb | [Hs | [Hb Hs]]].
  - rewrite (run_burst_typed env fuel s Hb Ht). cbn [fst w_trace].
    rewrite applied_app, announced_app, applied_burstTrace, announced_burstTrace.
    cbn [burstStartup applied announced flat_map app].
    rewrite !map_map. apply map_ext. intros i.
    destruct (Nat.even i); apply replicasOf_copiesOf; exact Ht.
  - destruct (run_step_counts env fuel s Hs Ht) as [_ [Ha Hp]].
    rewrite Ha, Hp, !map_map. apply map_ext. intros k.
    apply replicasOf_copiesOf. exact Ht.
  - rewrite (run_invalid env fuel s Hb Hs). reflexivity.
Qed.

Lemma every_announcement_is_matched_by_its_apply_witness :
  map replicasOf
    (applied (w_trace (fst (run (fun _ => true) 7 (command manifests 100 0 "step" 30)))))
  = map (fun n => repeat (cell n) (numDeployments manifests))
      (announced (w_trace (fst (run (fun _ => true) 7
                                  (command manifests 100 0 "step" 30))))).
Proof.
  apply (every_announcement_is_matched_by_its_apply (fun _ => true) 7
           (command manifests 100 0 "step" 30)).
  reflexivity.
Defined.

(** X12.  A run rewrites two things in the struct and nothing else: the
    replica pointers of the loaded deployments and, under the step pattern,
    the scaling factor.  [min], [max], [interval] and the pattern name are
    never written, and outside the step pattern the factor is not either. *)
Theorem scale_keeps_the_command (env : Env) (fuel : nat) (s : scale) :
  min (w_s (fst (run env fuel s))) = min s
  /\ max (w_s (fst (run env fuel s))) = max s
  /\ interval (w_s (fst (run env fuel s))) = interval s
  /\ patternName (w_s (fst (run env fuel s))) = patternName s
  /\ (scalingFactor (w_s (fst (run env fuel s))) = scalingFactor s
      \/ patternName s = "step"%string).
Proof.
  destruct (pattern_cases s) as [Hb | [Hs | [Hb Hs]]].
  - destruct (wellTyped (resources (k8sClient s))) eqn:Ht.
    + rewrite (run_burst_typed env fuel s Hb Ht). repeat split. left. reflexivity.
    + rewrite (run_burst_untyped env fuel s Hb Ht). repeat split. left. reflexivity.
  - destruct fuel as [|fuel].
    + rewrite (run_step_zero env s Hs). repeat split. right. exact Hs.
    + destruct (wellTyped (resources (k8sClient s))) eqn:Ht.
      * rewrite (run_step_typed env (S fuel) s Hs Ht). repeat split. right. exact Hs.
      * rewrite (run_step_untyped env fuel s Hs Ht). repeat split. right. exact Hs.
  - rewrite (run_invalid env fuel s Hb Hs). repeat split. left. reflexivity.
Qed.

(** X13.  The burst pattern does not look at the scaling factor: two
    structs that differ in the factor only give the same effects, the same
    outcome and the same loaded resources. *)
Theorem burst_ignores_the_scaling_factor
    (env : Env) (fuel : nat) (s : scale) (f : Z) :
  patternName s = "burst"%string ->
  w_trace (fst (run env fuel (with_scalingFactor s f)))
  = w_trace (fst (run env fuel s))
  /\ snd (run env fuel (with_scalingFactor s f)) = snd (run env fuel s)
  /\ resources (k8sClient (w_s (fst (run env fuel (with_scalingFactor s f)))))
     = resources (k8sClient (w_s (fst (run env fuel s)))).
Proof.
  intros Hb.
  assert (Hb' : patternName (with_scalingFactor s f) = "burst"%string) by exact Hb.
  destruct (wellTyped (resources (k8sClient s))) eqn:Ht.
  - rewrite (run_burst_typed env fuel s Hb Ht).
    rewrite (run_burst_typed env fuel (with_scalingFactor s f) Hb' Ht).
    repeat split.
  - rewrite (run_burst_untyped env fuel s Hb Ht).
    rewrite (run_burst_untyped env fuel (with_scalingFactor s f) Hb' Ht).
    cbn [fst snd w_trace w_s with_resources k8sClient resources].
    repeat split.
    unfold panicStore.
    apply f_equal.
    apply updateResources_load_only. reflexivity.
Qed.

Lemma burst_ignores_the_scaling_factor_witness :
  w_trace (fst (run noErrors 3 (with_scalingFactor (command manifests 20 1 "burst" 0) (-7))))
  = w_trace (fst (run noErrors 3 (command manifests 20 1 "burst" 0)))
  /\ snd (run noErrors 3 (with_scalingFactor (command manifests 20 1 "burst" 0) (-7)))
     = snd (run noErrors 3 (command manifests 20 1 "burst" 0))
  /\ resources (k8sClient (w_s (fst (run noErrors 3
        (with_scalingFactor (command manifests 20 1 "burst" 0) (-7))))))
     = resources (k8sClient (w_s (fst (run noErrors 3 (command manifests 20 1 "burst" 0))))).
Proof.
  apply (burst_ignores_the_scaling_factor noErrors 3
           (command manifests 20 1 "burst" 0) (-7)).
  reflexivity.
Defined.

(** ** The step pattern at its edges *)

Lemma wrap32_range (z : Z) : INT32_MIN <= wrap32 z <= INT32_MAX.
Proof.
  unfold wrap32, INT32_MIN, INT32_MAX.
  pose proof (Z.mod_pos_bound (z + 2 ^ 31) (2 ^ 32)). lia.
Qed.

Lemma nextCount_bounds (mx f n : Z) :
  nextCount mx f n <= mx
  /\ nextCount mx f n <= INT32_MAX
  /\ (INT32_MIN <= mx -> INT32_MIN <= nextCount mx f n).
Proof.
  unfold nextCount, int32_add. pose proof (wrap32_range (n + f)) as H.
  destruct (Z.ltb_spec mx (wrap32 (n + f))); lia.
Qed.

(** X14.  The upper clamp holds without any condition.  Under the step
    pattern, whatever the factor (negative, or so large that the addition
    wraps around) and whatever [min], every count announced after the first
    one is at most [max] and at most [2^31 - 1]; only the first one, [min]
    itself, escapes the clamp. *)
Theorem step_counts_after_the_first_never_exceed_max
    (env : Env) (fuel : nat) (s : scale) :
  patternName s = "step"%string ->
  hd_error (announced (w_trace (fst (run env (S fuel) s)))) = Some (min s)
  /\ Forall (fun v => v <= max s /\ v <= INT32_MAX)
       (tl (announced (w_trace (fst (run env (S fuel) s))))).
Proof.
  intros Hs.
  destruct (wellTyped (resources (k8sClient s))) eqn:Ht.
  - destruct (run_step_counts env (S fuel) s Hs Ht) as [_ [Ha _]].
    rewrite Ha. cbn [seq map hd_error tl]. split; [reflexivity|].
    rewrite <- seq_shift, map_map.
    apply Forall_forall. intros v Hv. apply in_map_iff in Hv.
    destruct Hv as [k [Hv _]]. subst v. unfold stepCount.
    cbn [Nat.iter nat_rect].
    pose proof (nextCount_bounds (max s) (effectiveFactor s)
                  (Nat.iter k (nextCount (max s) (effectiveFactor s)) (min s))) as Hb.
    unfold Nat.iter in Hb. lia.
  - rewrite (run_step_untyped env fuel s Hs Ht). cbn [fst w_trace].
    rewrite announced_app, announced_stepStartup.
    cbn [announced flat_map app hd_error tl]. split; [reflexivity | constructor].
Qed.

Lemma step_counts_after_the_first_never_exceed_max_witness :
  hd_error (announced (w_trace (fst (run noErrors 4
              (command manifests 2147483647 0 "step" 2147483646))))) = Some 0
  /\ Forall (fun v => v <= 2147483647 /\ v <= INT32_MAX)
       (tl (announced (w_trace (fst (run noErrors 4
              (command manifests 2147483647 0 "step" 2147483646)))))).
Proof.
  apply (step_counts_after_the_first_never_exceed_max noErrors 3
           (command manifests 2147483647 0 "step" 2147483646)).
  reflexivity.
Defined.

(** X15.  What the derived factor [max / 10] buys.  Under the step pattern
    with the factor left at zero or given as at least [max], [10 <= max],
    [0 <= min <= max] and no wrap-around, on a target set that passes the
    type assertion: [max] is announced from the twentieth cycle on at the
    latest, whatever [min]; and when [min] is 0 and [max] a multiple of 10
    the first eleven counts are 0, max/10, 2 max/10, ..., max, the ten steps
    the code aims at. *)
Theorem derived_factor_reaches_max_within_twenty_cycles
    (env : Env) (fuel n : nat) (s : scale) :
  patternName s = "step"%string ->
  wellTyped (resources (k8sClient s)) = true ->
  scalingFactor s = 0 \/ max s <= scalingFactor s ->
  10 <= max s ->
  0 <= min s <= max s ->
  max s + max s / 10 <= INT32_MAX ->
  (n < fuel)%nat ->
  ((19 <= n)%nat ->
     nth_error (announced (w_trace (fst (run env fuel s)))) n = Some (max s))
  /\ (min s = 0 -> max s mod 10 = 0 -> (n <= 10)%nat ->
        nth_error (announced (w_trace (fst (run env fuel s)))) n
        = Some (Z.of_nat n * (max s / 10))).
Proof.
  intros Hs Ht Hd Hmx Hmn Hhi Hn.
  assert (He : effectiveFactor s = max s / 10).
  { rewrite (effectiveFactor_derived s Hd). apply Z.quot_div_nonneg; lia. }
  pose proof (Z.div_mod (max s) 10 ltac:(lia)) as Hdm.
  pose proof (Z.mod_pos_bound (max s) 10 ltac:(lia)) as Hmod.
  destruct (run_step_counts env fuel s Hs Ht) as [_ [Ha _]].
  rewrite Ha, (nth_error_map_seq (stepCount s) _ _ Hn).
  unfold stepCount. rewrite He.
  assert (Hf : 1 <= max s / 10) by lia.
  rewrite (iter_nextCount_formula (max s) (max s / 10) (min s) n)
    by (try (unfold INT32_MIN; lia); try nia; auto).
  split.
  - intros H19. f_equal.
    assert (19 * (max s / 10) <= Z.of_nat n * (max s / 10)) by nia.
    lia.
  - intros H0 Hdiv H10. f_equal.
    assert (Z.of_nat n * (max s / 10) <= 10 * (max s / 10)) by nia.
    lia.
Qed.

Lemma derived_factor_reaches_max_within_twenty_cycles_witness :
  ((19 <= 19)%nat ->
     nth_error (announced (w_trace (fst (run noErrors 25 (command manifests 19 0 "step" 0)))))
       19 = Some 19)
  /\ (0 = 0 -> 19 mod 10 = 0 -> (19 <= 10)%nat ->
        nth_error (announced (w_trace (fst (run noErrors 25 (command manifests 19 0 "step" 0)))))
          19 = Some (Z.of_nat 19 * (19 / 10))).
Proof.
  apply (derived_factor_reaches_max_within_twenty_cycles noErrors 25 19
           (command manifests 19 0 "step" 0)).
  - reflexivity.
  - reflexivity.
  - left. reflexivity.
  - simpl. lia.
  - simpl. lia.
  - vm_compute. discriminate.
  - lia.
Defined.

(** The bound of twenty cycles is reached: with [max = 19] the factor is 1
    and the nineteenth count is still 18. *)
Example derived_factor_needs_twenty_cycles :
  nth_error (announced (w_trace (fst (run noErrors 25 (command manifests 19 0 "step" 0)))))
    18 = Some 18.
Proof. reflexivity. Qed.

Lemma iter_nextCount_above (mx f mn : Z) (k : nat) :
  mx < mn -> INT32_MIN <= mx -> 0 <= f -> mn + f <= INT32_MAX ->
  Nat.iter (S k) (nextCount mx f) mn = mx.
Proof.
  intros Hlt Hlo Hf Hhi. induction k as [|k IH].
  - cbn [Nat.iter nat_rect]. rewrite nextCount_small by lia. lia.
  - change (Nat.iter (S (S k)) (nextCount mx f) mn)
      with (nextCount mx f (Nat.iter (S k) (nextCount mx f) mn)).
    rewrite IH. rewrite nextCount_small by lia. lia.
Qed.

(** X16.  Nothing checks that [min <= max].  Under the step pattern with
    [max < min], a factor that is not negative and no wrap-around, on a
    target set that passes the type assertion, the first cycle applies
    [min], above [max], and every later cycle applies [max]. *)
Theorem step_with_min_above_max_applies_min_once
    (env : Env) (fuel : nat) (s : scale) :
  patternName s = "step"%string ->
  wellTyped (resources (k8sClient s)) = true ->
  max s < min s ->
  INT32_MIN <= max s ->
  0 <= scalingFactor (w_s (fst (run env 0 s))) ->
  min s + scalingFactor (w_s (fst (run env 0 s))) <= INT32_MAX ->
  announced (w_trace (fst (run env (S fuel) s))) = min s :: repeat (max s) fuel
  /\ applied (w_trace (fst (run env (S fuel) s)))
     = copiesOf (cell (min s)) (resources (k8sClient s))
       :: repeat (copiesOf (cell (max s)) (resources (k8sClient s))) fuel.
Proof.
  intros Hs Ht Hlt Hlo Hf Hhi.
  rewrite (run_step_factor env 0 s Hs) in *.
  destruct (run_step_counts env (S fuel) s Hs Ht) as [_ [Ha Hp]].
  rewrite Ha, Hp. cbn [seq map]. rewrite <- seq_shift, !map_map.
  assert (Hc : forall k, stepCount s (S k) = max s).
  { intros k. unfold stepCount. apply iter_nextCount_above; assumption. }
  split; f_equal.
  - rewrite (map_ext_seq _ (fun _ => max s)) by (intros; apply Hc).
    apply map_const_seq.
  - rewrite (map_ext_seq _ (fun _ => copiesOf (cell (max s)) (resources (k8sClient s))))
      by (intros; rewrite Hc; reflexivity).
    apply map_const_seq.
Qed.

Lemma step_with_min_above_max_applies_min_once_witness :
  announced (w_trace (fst (run noErrors 4 (command manifests 20 50 "step" 5))))
  = 50 :: repeat 20 3
  /\ applied (w_trace (fst (run noErrors 4 (command manifests 20 50 "step" 5))))
     = copiesOf (cell 50) manifests :: repeat (copiesOf (cell 20) manifests) 3.
Proof.
  apply (step_with_min_above_max_applies_min_once noErrors 3
           (command manifests 20 50 "step" 5)).
  - reflexivity.
  - reflexivity.
  - simpl. lia.
  - vm_compute. discriminate.
  - vm_compute. discriminate.
  - vm_compute. discriminate.
Defined.

(** ** Longer observations, and the loaded target set during a run *)

Lemma burstTrace_snoc (env : Env) (mx mn itv : Z) (mxRO mnRO : list Resource)
    (c fuel : nat) :
  burstTrace env mx mn itv mxRO mnRO c (S fuel)
  = burstTrace env mx mn itv mxRO mnRO c fuel
    ++ burstTrace env mx mn itv mxRO mnRO (c + 2 * fuel) 1.
Proof.
  revert c. induction fuel as [|k IH]; intros c.
  - rewrite Nat.add_0_r. reflexivity.
  - change (burstTrace env mx mn itv mxRO mnRO c (S (S k)))
      with ([EvLog (LScalingTo mx); EvApply mxRO] ++ reportOf env c
            ++ [EvSleep itv; EvLog (LScalingTo mn); EvApply mnRO]
            ++ reportOf env (S c)
            ++ [EvSleep itv]
            ++ burstTrace env mx mn itv mxRO mnRO (S (S c)) (S k)).
    rewrite (IH (S (S c))).
    replace (S (S c) + 2 * k)%nat with (c + 2 * S k)%nat by lia.
    cbn [burstTrace]. repeat rewrite <- app_assoc. reflexivity.
Qed.

Lemma stepTrace_snoc (env : Env) (itv mx f : Z) (ts : list Resource)
    (n : Z) (c fuel : nat) :
  stepTrace env itv mx f ts n c (S fuel)
  = stepTrace env itv mx f ts n c fuel
    ++ stepTrace env itv mx f ts (Nat.iter fuel (nextCount mx f) n) (c + fuel) 1.
Proof.
  revert n c. induction fuel as [|k IH]; intros n c.
  - rewrite Nat.add_0_r. reflexivity.
  - change (stepTrace env itv mx f ts n c (S (S k)))
      with ([EvLog (LScalingTo n); EvApply (copiesOf (cell n) ts)] ++ reportOf env c
            ++ [EvSleep itv]
            ++ stepTrace env itv mx f ts (nextCount mx f n) (S c) (S k)).
    rewrite (IH (nextCount mx f n) (S c)).
    replace (S c + k)%nat with (c + S k)%nat by lia.
    rewrite <- Nat.iter_succ_r.
    cbn [stepTrace]. repeat rewrite <- app_assoc. reflexivity.
Qed.

(** X17.  Watching longer only adds effects.  The trace after [fuel + 1]
    iterations extends the trace after [fuel] iterations, so the n-th
    effect of a run does not depend on how long the run is observed; and a
    run that has exited or panicked stays exactly as it ended. *)
Theorem longer_runs_extend_shorter_ones (env : Env) (fuel : nat) (s : scale) :
  exists more,
    w_trace (fst (run env (S fuel) s)) = w_trace (fst (run env fuel s)) ++ more
    /\ (snd (run env fuel s) <> Running ->
        more = [] /\ run env (S fuel) s = run env fuel s).
Proof.
  destruct (pattern_cases s) as [Hb | [Hs | [Hb Hs]]].
  - destruct (wellTyped (resources (k8sClient s))) eqn:Ht.
    + rewrite !(run_burst_typed env _ s Hb Ht). cbn [fst snd w_trace].
      rewrite burstTrace_snoc, app_assoc.
      eexists. split; [reflexivity|]. intros H. contradiction H. reflexivity.
    + rewrite !(run_burst_untyped env _ s Hb Ht). cbn [fst snd w_trace].
      exists []. rewrite app_nil_r. repeat split.
  - destruct (wellTyped (resources (k8sClient s))) eqn:Ht.
    + rewrite !(run_step_typed env _ s Hs Ht). cbn [fst snd w_trace].
      rewrite stepTrace_snoc, app_assoc.
      eexists. split; [reflexivity|]. intros H. contradiction H. reflexivity.
    + rewrite (run_step_untyped env fuel s Hs Ht). cbn [fst w_trace].
      destruct fuel as [|fuel].
      * rewrite (run_step_zero env s Hs). cbn [fst snd stepEntry w_trace].
        eexists. split; [reflexivity|]. intros H. contradiction H. reflexivity.
      * rewrite (run_step_untyped env fuel s Hs Ht). cbn [fst snd w_trace].
        exists []. rewrite app_nil_r. repeat split.
  - rewrite !(run_invalid env _ s Hb Hs). cbn [fst snd w_trace].
    exists []. repeat split.
Qed.

(** X18.  During a run the loaded target set never shows what was last
    sent.  On a target set that passes the type assertion: under the burst
    pattern the loaded deployments read [min] at every point of the loop,
    also right after the max set was applied; under the step pattern, after
    each iteration, they read the count of the next cycle while the apply
    just made carried the count of this one. *)
Theorem loaded_deployments_read_the_variable_not_the_last_apply
    (env : Env) (fuel : nat) (s : scale) :
  wellTyped (resources (k8sClient s)) = true ->
  (patternName s = "burst"%string ->
     map (load (fst (run env fuel s)))
       (scaledReplicas (resources (k8sClient (w_s (fst (run env fuel s))))))
     = repeat (Some (min s)) (numDeployments (resources (k8sClient s))))
  /\ (patternName s = "step"%string ->
        map (load (fst (run env (S fuel) s)))
          (scaledReplicas (resources (k8sClient (w_s (fst (run env (S fuel) s))))))
        = repeat (Some (stepCount s (S fuel))) (numDeployments (resources (k8sClient s)))
        /\ nth_error (applied (w_trace (fst (run env (S fuel) s)))) fuel
           = Some (copiesOf (cell (stepCount s fuel)) (resources (k8sClient s)))).
Proof.
  intros Ht. split.
  - intros Hb. rewrite (run_burst_typed env fuel s Hb Ht).
    cbn [fst w_s with_resources k8sClient resources].
    rewrite (scaledReplicas_repointAll _ _ Ht), map_repeat. reflexivity.
  - intros Hs. destruct (run_step_counts env (S fuel) s Hs Ht) as [_ [_ Hp]].
    rewrite Hp. rewrite (run_step_typed env (S fuel) s Hs Ht).
    cbn [fst w_s with_resources k8sClient resources stepStore].
    rewrite (scaledReplicas_repointAll _ _ Ht), map_repeat. split; [reflexivity|].
    apply (nth_error_map_seq
             (fun k => copiesOf (cell (stepCount s k)) (resources (k8sClient s)))).
    lia.
Qed.

Lemma loaded_deployments_read_the_variable_not_the_last_apply_witness :
  map (load (fst (run noErrors 3 (command manifests 100 0 "step" 30))))
    (scaledReplicas
       (resources (k8sClient (w_s (fst (run noErrors 3 (command manifests 100 0 "step" 30)))))))
  = repeat (Some (stepCount (command manifests 100 0 "step" 30) 3)) (numDeployments manifests)
  /\ nth_error (applied (w_trace (fst (run noErrors 3 (command manifests 100 0 "step" 30))))) 2
     = Some (copiesOf (cell (stepCount (command manifests 100 0 "step" 30) 2)) manifests).
Proof.
  apply (loaded_deployments_read_the_variable_not_the_last_apply noErrors 2
           (command manifests 100 0 "step" 30)).
  - reflexivity.
  - reflexivity.
Defined.
